(** * ash.api: the Service route composition, the Store cache hooks,
      the fallback handlers and the user authorisation.

    A shallow embedding of
      - lib/app/declarations/service.ts  (Service: addservices, crud, read,
        update, delete, exit, authenticate),
      - lib/app/declarations/store.ts    (Store.hooks),
      - lib/app/handlers.ts              (the two fallback middlewares),
      - the user service class           (User.authorize).

    JavaScript objects used as records are finite maps from field names to
    values; a promise is represented by the way it settles; a handler is a
    function of the request that returns what it did to the response and to
    the [next] continuation, together with the list of collaborators it
    called and the argument each one received. *)

From stdpp Require Import gmap strings list fin_maps.
From Stdlib Require Import ZArith Lia Ascii.

Open Scope string_scope.
Open Scope Z_scope.

(** ** JavaScript values *)

(** Numbers are modelled on the integers together with [NaN]: page indices,
    sizes and counts are the only numbers the service computes with. *)
Inductive jsnum : Type :=
  | NaN
  | Num (z : Z).

Inductive Value : Type :=
  | VUndef
  | VNull
  | VBool (b : bool)
  | VNum (n : jsnum)
  | VStr (s : string).

#[global] Instance jsnum_eq_dec : EqDecision jsnum.
Proof. solve_decision. Defined.

#[global] Instance Value_eq_dec : EqDecision Value.
Proof. solve_decision. Defined.

(** A request-derived record: [{[field]: value}]. *)
Abbreviation Data := (gmap string Value).

(** [obj[k]]: a missing field reads as [undefined]. *)
Definition get (d : Data) (k : string) : Value :=
  default VUndef (d !! k).

(** [!!v] *)
Definition truthy (v : Value) : bool :=
  match v with
  | VUndef | VNull => false
  | VBool b => b
  | VNum NaN => false
  | VNum (Num z) => negb (z =? 0)
  | VStr s => negb (String.eqb s EmptyString)
  end.

(** [a > b] on numbers: every comparison with [NaN] is false. *)
Definition gt (a b : jsnum) : bool :=
  match a, b with
  | Num x, Num y => y <? x
  | _, _ => false
  end.

(** [a * b] *)
Definition mul (a b : jsnum) : jsnum :=
  match a, b with
  | Num x, Num y => Num (x * y)
  | _, _ => NaN
  end.

(** [{...body, ...query}]: the fields of [body], then those of [query],
    a later field replacing an earlier one of the same name. *)
Definition spread (body query : Data) : Data := query ∪ body.

Record Request : Type := mkRequest {
  req_method : string;
  req_path : string;
  body : Data;
  query : Data;
}.

(** ** Errors and promises *)

(** An exception object: [message], and the [type] tag the body parser sets
    (absent on errors made with [Error(...)]). *)
Record Error : Type := mkError {
  err_type : option string;
  err_message : string;
}.

(** [Error(msg)] *)
Definition Error_ (msg : string) : Error :=
  {| err_type := None; err_message := msg |}.

(** A settled promise. *)
Inductive Promise (A : Type) : Type :=
  | Fulfilled (a : A)
  | Rejected (e : Error).
Arguments Fulfilled {A} a.
Arguments Rejected {A} e.

(** A call of a function that hands back a promise: it throws before
    returning, or returns the promise. *)
Inductive Call (A : Type) : Type :=
  | Throws (e : Error)
  | Returns (p : Promise A).
Arguments Throws {A} e.
Arguments Returns {A} p.

(** [p.then(f)]: [f] runs on the fulfilled value and settles the result (an
    exception thrown in [f] rejects it); a rejection passes through. *)
Definition then_ {A B : Type} (p : Promise A) (f : A -> Promise B) : Promise B :=
  match p with
  | Fulfilled a => f a
  | Rejected e => Rejected e
  end.

(** ** The response envelope (helpers/return.ts) *)

(** What a handler passes as the payload of an envelope. *)
Inductive Payload : Type :=
  | PValue (v : Value)
  | PData (d : Data)
  | PList (l : list Data)
  | PPage (page : list Data) (length : Z).

Record Return : Type := mkReturn {
  message : option string;
  payload : Payload;
  debug : option string;
}.

(** [response.status(status).send(result)] *)
Record Response : Type := mkResponse {
  status : Z;
  sent : Return;
}.

(** ** Handlers *)

(** A function object of the heap: [===] compares references. *)
Definition Ref := nat.

(** The functions behind the references: hooks and callbacks. *)
Definition Heap := Ref -> Data -> Call Payload.

Inductive Operation : Type := Create | Read | Update | Delete.

(** Who a handler called. *)
Inductive Callee : Type :=
  | Authenticate
  | Fn (callback : Ref)
  | Crud (op : Operation).

Record Invocation : Type := Invoke {
  callee : Callee;
  arg : Data;
}.

(** What a handler does with the response and the continuation. *)
Inductive Action : Type :=
  | Respond (r : Response)
  | Next (result : option Payload)
  | Raise (e : Error).

Record Run : Type := mkRun {
  calls : list Invocation;
  action : Action;
}.

Definition Handler := Request -> Run.

(** The payload a handler answered with, if it answered. *)
Definition payload_of (a : Action) : option Payload :=
  match a with
  | Respond r => Some (payload (sent r))
  | _ => None
  end.

(** The status a handler answered with, if it answered. *)
Definition status_of (a : Action) : option Z :=
  match a with
  | Respond r => Some (status r)
  | _ => None
  end.

(** A handler that hands every collaborator it calls the record rebuilt
    from the request. *)
Definition rebuilds_data (h : Handler) : Prop :=
  forall request i,
    i ∈ calls (h request) -> arg i = spread (body request) (query request).

(** [context[method](path, handler)] *)
Record Route : Type := mkRoute {
  r_method : string;
  r_path : string;
  r_handler : Handler;
}.

(** ** The web framework *)

Inductive Outcome : Type :=
  | Responded (r : Response)
  | Unmatched
  | Errored (e : Error).

Record Served : Type := mkServed {
  invoked : list Invocation;
  outcome : Outcome;
}.

(** Modelled from the spec: the routing of the web framework, which the
    Application class wraps and which is not part of the sources. The
    handlers registered for a method and path run in registration order; a
    handler that responds ends the chain, [next()] or [next(result)] hands
    control to the next registered handler, whose request is the same one
    (the result is not threaded into it), and an exception leaves the chain
    for the error-handling stage. *)
Fixpoint run_chain (handlers : list Handler) (request : Request) : Served :=
  match handlers with
  | [] => {| invoked := []; outcome := Unmatched |}
  | h :: rest =>
      let r := h request in
      match action r with
      | Respond resp => {| invoked := calls r; outcome := Responded resp |}
      | Next _ =>
          let s := run_chain rest request in
          {| invoked := calls r ++ invoked s; outcome := outcome s |}
      | Raise e => {| invoked := calls r; outcome := Errored e |}
      end
  end.

(** Modelled from the spec: a route is matched by its method and its path. *)
Definition matched (request : Request) (r : Route) : bool :=
  String.eqb (r_method r) (req_method request)
  && String.eqb (r_path r) (req_path request).

Definition dispatch (routes : list Route) (request : Request) : Served :=
  run_chain (map r_handler (List.filter (matched request) routes)) request.

(** ** The ORM model handle *)

(** [find(filter).skip(n).limit(n)]: a query under construction. *)
Record Query : Type := mkQuery {
  q_filter : Data;
  q_skip : option jsnum;
  q_limit : option jsnum;
}.

Definition find (filter : Data) : Query :=
  {| q_filter := filter; q_skip := None; q_limit := None |}.

Definition skip (n : jsnum) (q : Query) : Query :=
  {| q_filter := q_filter q; q_skip := Some n; q_limit := q_limit q |}.

Definition limit (n : jsnum) (q : Query) : Query :=
  {| q_filter := q_filter q; q_skip := q_skip q; q_limit := Some n |}.

(** The raw result of a write. *)
Record WriteResult : Type := mkWriteResult {
  matchedCount : Z;
  modifiedCount : Z;
}.

(** The operations of the ORM the service calls, each by the promise it
    returns. A promise of [option] may be fulfilled with [null]. The CRUD
    methods of the service reach these operations through the identifier
    [mongoose]; the user service reaches them through the [storage] of its
    store. *)
Record Model : Type := mkModel {
  save : Data -> Promise Data;
  exec : Query -> Promise (list Data);
  countDocuments : Data -> Promise Z;
  updateOne : Data -> Data -> Promise (option WriteResult);
  findOneAndRemove : Data -> Promise (option Data);
  findOne : Data -> Promise (option Data);
}.

(** *** An in-memory collection behind the ORM interface *)

(** A document satisfies a filter when it agrees with it on every field. *)
Definition satisfies (filter : Data) (doc : Data) : bool :=
  forallb (fun kv => bool_decide (get doc kv.1 = kv.2)) (map_to_list filter).

Definition selected (filter : Data) (docs : list Data) : list Data :=
  List.filter (satisfies filter) docs.

Definition window (q : Query) (rows : list Data) : Promise (list Data) :=
  match q_skip q, q_limit q with
  | Some NaN, _ | _, Some NaN => Rejected (Error_ "Failed to parse number")
  | s, l =>
      let skipped := match s with Some (Num k) => drop (Z.to_nat k) rows | _ => rows end in
      Fulfilled (match l with Some (Num k) => take (Z.to_nat k) skipped | _ => skipped end)
  end.

(** The collection [docs] seen through the ORM: queries select, skip and
    limit; [updateOne] reports how many documents it matched and fulfils
    with that report whether or not one matched; [findOne] and
    [findOneAndRemove] fulfil with [null] when nothing matches. *)
Definition collection (docs : list Data) : Model :=
  {| save := fun d => Fulfilled d;
     exec := fun q => window q (selected (q_filter q) docs);
     countDocuments := fun f => Fulfilled (Z.of_nat (length (selected f docs)));
     updateOne := fun f _ =>
       let k := Z.of_nat (length (take 1 (selected f docs))) in
       Fulfilled (Some {| matchedCount := k; modifiedCount := k |});
     findOneAndRemove := fun f => Fulfilled (head (selected f docs));
     findOne := fun f => Fulfilled (head (selected f docs)) |}.

(** The store a service reaches through the application context. *)
Record StoreInterface : Type := mkStoreInterface {
  store_name : string;
  storage : Model;
}.

(** The application context: the [authenticate] predicate it is given and
    its registry of stores. *)
Module Application.
Record t : Type := mk {
  authenticate : Data -> Call Value;
  query : string -> StoreInterface;
}.
End Application.

(** ** Service (declarations/service.ts) *)

Module Service.

(** The descriptor of one sub-route. *)
Record Hooks : Type := mkHooks {
  before : option (list Ref);
  after : option (list Ref);
}.

Record Subservice : Type := mkSubservice {
  s_method : string;
  s_message : option string;
  s_error : option string;
  s_authenticate : bool;
  s_hooks : option Hooks;
  s_callback : option Ref;
}.

(** [{[route]: Subservice}] through [Object.entries]. *)
Definition Microservices := list (string * Subservice).

(** [value.hooks?.before] and [value.hooks?.after] *)
Definition hooks_before (value : Subservice) : option (list Ref) :=
  match s_hooks value with Some h => before h | None => None end.

Definition hooks_after (value : Subservice) : option (list Ref) :=
  match s_hooks value with Some h => after h | None => None end.

(** [array.indexOf(callback)]: the first index holding the same reference,
    [-1] when there is none. *)
Fixpoint indexOf_from (callback : Ref) (array : list Ref) (i : Z) : Z :=
  match array with
  | [] => -1
  | x :: rest =>
      if Nat.eqb x callback then i else indexOf_from callback rest (i + 1)
  end.

Definition indexOf (callback : Ref) (array : list Ref) : Z :=
  indexOf_from callback array 0.

(** The options of [exit]. *)
Record Options : Type := mkOptions {
  o_message : option string;
  o_status : Z;
  o_debug : option string;
}.

Definition exit (value : Payload) (options : Options) : Action :=
  Respond {| status := o_status options;
             sent := {| message := o_message options;
                        payload := value;
                        debug := o_debug options |} |}.

(** The engine's error for a property read on [undefined]. *)
Definition undefined_read : Error :=
  {| err_type := None;
     err_message := "Cannot read properties of undefined (reading 'indexOf')" |}.

Inductive HookKind : Type := hook_before | hook_after.

(** [`/${this.name}/${key}`] and [`/${this.name}`] *)
Definition subpath (name key : string) : string := "/" +:+ name +:+ "/" +:+ key.
Definition mainpath (name : string) : string := "/" +:+ name.

(** The closure [hooker] of [addservices]: the handler registered for one
    before- or after-hook of the sub-route [key]. *)
Definition addservices_hooker (fns : Heap) (name key : string) (value : Subservice)
    (callback : Ref) (hook : HookKind) : Route :=
  {| r_method := s_method value;
     r_path := subpath name key;
     r_handler := fun request =>
       let data := spread (body request) (query request) in
       {| calls := [Invoke (Fn callback) data];
          action :=
            match fns callback data with
            | Throws e => Raise e
            | Returns (Fulfilled result) =>
                match hook with
                | hook_before => Next (Some result)
                | hook_after =>
                    match hooks_after value with
                    | Some array =>
                        if indexOf callback array =? Z.of_nat (length array) - 1
                        then exit result
                               {| o_message := s_message value;
                                  o_status := 200;
                                  o_debug := None |}
                        else Next (Some result)
                    | None =>
                        exit (PData data)
                          {| o_message := s_error value;
                             o_status := 422;
                             o_debug := Some (err_message undefined_read) |}
                    end
                end
            | Returns (Rejected error) =>
                exit (PData data)
                  {| o_message := s_error value;
                     o_status := 422;
                     o_debug := Some (err_message error) |}
            end |} |}.

(** The handler registered for the custom callback of the sub-route. *)
Definition callback_route (fns : Heap) (name key : string) (value : Subservice)
    (callback : Ref) : Route :=
  {| r_method := s_method value;
     r_path := subpath name key;
     r_handler := fun request =>
       let data := spread (body request) (query request) in
       {| calls := [Invoke (Fn callback) data];
          action :=
            match fns callback data with
            | Throws e => Raise e
            | Returns (Fulfilled result) =>
                match hooks_after value with
                | None =>
                    exit result
                      {| o_message := s_message value;
                         o_status := 200;
                         o_debug := None |}
                | Some _ => Next (Some result)
                end
            | Returns (Rejected error) =>
                exit (PData data)
                  {| o_message := s_error value;
                     o_status := 422;
                     o_debug := Some (err_message error) |}
            end |} |}.

(** [Service.authenticate]: the gate of a sub-route that asks for it. *)
Definition authenticate (context : Application.t) (name : string)
    (service : Subservice) (key : string) : list Route :=
  if s_authenticate service then
    [ {| r_method := s_method service;
         r_path := subpath name key;
         r_handler := fun request =>
           let data := spread (body request) (query request) in
           {| calls := [Invoke Authenticate data];
              action :=
                match Application.authenticate context data with
                | Throws e => Raise e
                | Returns (Fulfilled value) =>
                    if truthy value then Next None
                    else exit (PData data)
                           {| o_message := Some "Oops, authentication error occurred!";
                              o_status := 412;
                              o_debug := Some "Oops, authentication error occurred!" |}
                | Returns (Rejected error) =>
                    exit (PData data)
                      {| o_message := Some "Oops, authentication error occurred!";
                         o_status := 412;
                         o_debug := Some (err_message error) |}
                end |} |} ]
  else [].

(** [array?.forEach(f)] where [f] registers one route. *)
Definition forEach {A : Type} (array : option (list A)) (f : A -> Route) : list Route :=
  match array with
  | Some l => map f l
  | None => []
  end.

(** The routes one entry of the map registers, in registration order. *)
Definition addservice (fns : Heap) (context : Application.t) (name : string)
    (entry : string * Subservice) : list Route :=
  let '(key, value) := entry in
  authenticate context name value key
  ++ forEach (hooks_before value)
       (fun callback => addservices_hooker fns name key value callback hook_before)
  ++ match s_callback value with
     | Some callback => [callback_route fns name key value callback]
     | None => []
     end
  ++ forEach (hooks_after value)
       (fun callback => addservices_hooker fns name key value callback hook_after).

Definition addservices (fns : Heap) (context : Application.t) (name : string)
    (services : Microservices) : list Route :=
  flat_map (addservice fns context name) services.

(** *** The CRUD operations *)

Definition create (mongoose : Model) (data : Data) : Promise Payload :=
  then_ (save mongoose data) (fun value => Fulfilled (PData value)).

(** [Number(v)]; [StringToNumber] is the engine's reading of a string. *)
Definition Number (StringToNumber : string -> jsnum) (v : Value) : jsnum :=
  match v with
  | VUndef => NaN
  | VNull => Num 0
  | VBool b => Num (if b then 1 else 0)
  | VNum x => x
  | VStr s => StringToNumber s
  end.

(** [if (typeof data[k] !== 'number') data[k] = Number(data[k])] *)
Definition coerce (StringToNumber : string -> jsnum) (k : string) (data : Data) : Data :=
  match get data k with
  | VNum _ => data
  | v => <[k := VNum (Number StringToNumber v)]> data
  end.

(** The number a coerced field holds. *)
Definition number_of (v : Value) : jsnum :=
  match v with
  | VNum x => x
  | _ => NaN
  end.

(** [Math.floor] on a count. *)
Definition Math_floor (k : Z) : Z := k.

(** [read]: the record as the call leaves it (page and size coerced in
    place) and the promise it returns. *)
Definition read (StringToNumber : string -> jsnum) (mongoose : Model) (data0 : Data)
    : Data * Promise Payload :=
  let data := coerce StringToNumber "size" (coerce StringToNumber "page" data0) in
  let query := delete "size" (delete "page" data) in
  let page := number_of (get data "page") in
  let size := number_of (get data "size") in
  (data,
   if gt page (Num (-1)) && gt size (Num 0) then
     then_ (exec mongoose (limit size (skip (mul page size) (find query))))
       (fun rows =>
          then_ (countDocuments mongoose query)
            (fun total => Fulfilled (PPage rows (Math_floor total))))
   else
     then_ (exec mongoose (find query)) (fun rows => Fulfilled (PList rows))).

Definition update (name : string) (mongoose : Model) (data : Data) : Promise Payload :=
  then_ (updateOne mongoose {[ "_id" := get data "_id" ]} data)
    (fun value =>
       match value with
       | None => Rejected (Error_ ("Oops, " +:+ name +:+ " does not exist!"))
       | Some _ => Fulfilled (PData data)
       end).

Definition delete_ (name : string) (mongoose : Model) (data : Data) : Promise Payload :=
  then_ (findOneAndRemove mongoose {[ "_id" := get data "_id" ]})
    (fun value =>
       match value with
       | None => Rejected (Error_ ("Oops, could not remove " +:+ name))
       | Some _ => Fulfilled (PData data)
       end).

(** [promise.then(value => exit(value, ok)).catch(error => exit(data, ko))] *)
Definition settle (p : Promise Payload) (data : Data)
    (ok : Options) (ko : string -> Options) : Action :=
  match p with
  | Fulfilled value => exit value ok
  | Rejected error => exit (PData data) (ko (err_message error))
  end.

Definition crud_post (name : string) (mongoose : Model) : Handler :=
  fun request =>
    let data := spread (body request) (query request) in
    {| calls := [Invoke (Crud Create) data];
       action :=
         settle (create mongoose data) data
           {| o_message := Some ("Hi, an " +:+ name +:+ " has been created!");
              o_status := 201;
              o_debug := None |}
           (fun text =>
              {| o_message := Some ("Oops, could not create " +:+ name +:+ "!");
                 o_status := 422;
                 o_debug := Some text |}) |}.

Definition crud_get (StringToNumber : string -> jsnum) (name : string)
    (mongoose : Model) : Handler :=
  fun request =>
    let data := spread (body request) (query request) in
    let '(data', p) := read StringToNumber mongoose data in
    {| calls := [Invoke (Crud Read) data];
       action :=
         settle p data'
           {| o_message := Some "Hi, a data payload is provided!";
              o_status := 200;
              o_debug := None |}
           (fun text =>
              {| o_message := Some ("Oops, could not find " +:+ name +:+ " list!");
                 o_status := 404;
                 o_debug := Some text |}) |}.

Definition crud_put (name : string) (mongoose : Model) : Handler :=
  fun request =>
    let data := spread (body request) (query request) in
    {| calls := [Invoke (Crud Update) data];
       action :=
         settle (update name mongoose data) data
           {| o_message := Some ("Hi, an " +:+ name +:+ " has been updated!");
              o_status := 200;
              o_debug := None |}
           (fun text =>
              {| o_message := Some ("Oops, could not update " +:+ name +:+ "!");
                 o_status := 413;
                 o_debug := Some text |}) |}.

Definition crud_delete (name : string) (mongoose : Model) : Handler :=
  fun request =>
    let data := spread (body request) (query request) in
    {| calls := [Invoke (Crud Delete) data];
       action :=
         settle (delete_ name mongoose data) data
           {| o_message := Some ("Hi, an " +:+ name +:+ " has been removed!");
              o_status := 200;
              o_debug := None |}
           (fun text =>
              {| o_message := Some ("Oops, could not remove " +:+ name +:+ "!");
                 o_status := 422;
                 o_debug := Some text |}) |}.

(** [crud()]: the four routes at [/name], in registration order. *)
Definition crud (StringToNumber : string -> jsnum) (name : string)
    (mongoose : Model) : list Route :=
  [ {| r_method := "post"; r_path := mainpath name;
       r_handler := crud_post name mongoose |};
    {| r_method := "get"; r_path := mainpath name;
       r_handler := crud_get StringToNumber name mongoose |};
    {| r_method := "put"; r_path := mainpath name;
       r_handler := crud_put name mongoose |};
    {| r_method := "delete"; r_path := mainpath name;
       r_handler := crud_delete name mongoose |} ].

(** The verbs [crud()] registers and the operation behind each. *)
Definition crud_verbs : list (string * Operation) :=
  [("post", Create); ("get", Read); ("put", Update); ("delete", Delete)].

(** *** The service-wide hooks *)

(** [{post?: [...], put?: [...], get?: [...], delete?: [...]}] through
    [Object.entries]. *)
Definition VerbHooks := list (string * option (list Ref)).

Definition hooker_route (fns : Heap) (name key : string) (callback : Ref) : Route :=
  {| r_method := key;
     r_path := mainpath name;
     r_handler := fun request =>
       let data := spread (body request) (query request) in
       {| calls := [Invoke (Fn callback) data];
          action :=
            match fns callback data with
            | Throws e => Raise e
            | Returns (Fulfilled _) =>
                exit (PData data)
                  {| o_message := None; o_status := 201; o_debug := None |}
            | Returns (Rejected error) =>
                exit (PData data)
                  {| o_message := Some "Oops, a service error occurred!";
                     o_status := 422;
                     o_debug := Some (err_message error) |}
            end |} |}.

Definition hooker (fns : Heap) (name : string) (hooks : VerbHooks) : list Route :=
  flat_map (fun entry => forEach (snd entry) (hooker_route fns name (fst entry))) hooks.

Record ServiceHooks : Type := mkServiceHooks {
  sh_before : option VerbHooks;
  sh_after : option VerbHooks;
}.

Record Properties : Type := mkProperties {
  name : string;
  store : option string;
  hooks : option ServiceHooks;
}.

(** The routes the constructor registers: [before()], [crud()] when a store
    is named, [after()]. *)
Definition constructor (fns : Heap) (StringToNumber : string -> jsnum)
    (mongoose : Model) (properties : Properties) : list Route :=
  hooker fns (name properties)
    (default [] (match hooks properties with Some h => sh_before h | None => None end))
  ++ match store properties with
     | Some s => if String.eqb s EmptyString then [] else crud StringToNumber (name properties) mongoose
     | None => []
     end
  ++ hooker fns (name properties)
       (default [] (match hooks properties with Some h => sh_after h | None => None end)).

End Service.

(** ** Store (declarations/store.ts) *)

Module Store.

(** The in-memory mirror of a store. *)
Record Cache (T : Type) : Type := mkCache {
  count : Z;
  data : gmap string T;
}.
Arguments mkCache {T} count data.
Arguments count {T} c.
Arguments data {T} c.

(** [private cache: Cache<T> = {count: 0, data: {}}] *)
Definition initial {T : Type} : Cache T := {| count := 0; data := ∅ |}.

(** The schema events the store listens to. *)
Inductive Event : Type := save | update | remove.

(** [hooks(schema)]: what the handler registered with [schema.post(event)]
    does to the cache when the ORM reports [value]; [_id] reads
    [value._id.toString()]. *)
Definition hooks {T : Type} (_id : T -> string) (event : Event) (value : T)
    (cache : Cache T) : Cache T :=
  match event with
  | save =>
      {| count := count cache + 1; data := <[_id value := value]> (data cache) |}
  | update =>
      {| count := count cache; data := <[_id value := value]> (data cache) |}
  | remove =>
      {| count := count cache; data := delete (_id value) (data cache) |}
  end.

Definition is_save (event : Event) : bool :=
  match event with
  | save => true
  | _ => false
  end.

(** One event reported to a cache the store maintains: a save, a remove,
    or an update of a record the cache holds (the update replaces it). *)
Inductive step {T : Type} (_id : T -> string) : Cache T -> Cache T -> Prop :=
  | step_save (value : T) (cache : Cache T) :
      step _id cache (hooks _id save value cache)
  | step_update (value : T) (cache : Cache T) :
      is_Some (data cache !! _id value) ->
      step _id cache (hooks _id update value cache)
  | step_remove (value : T) (cache : Cache T) :
      step _id cache (hooks _id remove value cache).

(** The cache after a sequence of reported events, oldest first. *)
Definition replay {T : Type} (_id : T -> string) (events : list (Event * T))
    (cache : Cache T) : Cache T :=
  fold_left (fun c ev => hooks _id (fst ev) (snd ev) c) events cache.

End Store.

(** ** User (the user service) *)

Module User.

(** [{username: data.username, password: data.password}] *)
Definition credentials (data : Data) : Data :=
  <["password" := get data "password"]> {[ "username" := get data "username" ]}.

Definition authorize (context : Application.t) (data : Data) : Call Data :=
  if negb (truthy (get data "username")) then
    Throws (Error_ "Oops, username is required!")
  else
    Returns
      (then_
         (findOne (storage (Application.query context "user")) (credentials data))
         (fun value =>
            match value with
            | None => Rejected (Error_ "Oops, username or password is incorrect!")
            | Some record => Fulfilled record
            end)).

(** The routes the constructor of the user service registers:
    [super(context, {name: 'user', store: 'user'})], then
    [super.addservices(services(this))]; [services] is the map the
    [user.service] module builds. *)
Definition constructor (fns : Heap) (StringToNumber : string -> jsnum)
    (mongoose : Model) (context : Application.t)
    (services : Service.Microservices) : list Route :=
  Service.constructor fns StringToNumber mongoose
    {| Service.name := "user"; Service.store := Some "user"; Service.hooks := None |}
  ++ Service.addservices fns context "user" services.

End User.

(** ** Handlers (handlers.ts) *)

Module Handlers.

(** [constants.strings]: the two fixed texts the handlers use. *)
Record Strings : Type := mkStrings {
  not_found_error : string;
  too_large_error : string;
}.

(** The middleware for a request no route answered. *)
Definition not_found (strings : Strings) (request : Request) : Action :=
  Respond {| status := 404;
             sent := {| message := Some (not_found_error strings);
                        payload := PData (body request);
                        debug := Some (not_found_error strings) |} |}.

(** The error-handling middleware. *)
Definition too_large (strings : Strings) (error : Error) (request : Request) : Action :=
  if bool_decide (err_type error = Some "entity.too.large") then
    Respond {| status := 413;
               sent := {| message := Some (too_large_error strings);
                          payload := PData (body request);
                          debug := Some (err_message error) |} |}
  else Raise error.

(** Modelled from the spec: the two middlewares close the pipeline of the
    application; a request no route answered reaches the first, an
    exception reaches the second. *)
Definition serve (strings : Strings) (routes : list Route) (request : Request) : Action :=
  match outcome (dispatch routes request) with
  | Responded r => Respond r
  | Unmatched => not_found strings request
  | Errored e => too_large strings e request
  end.

End Handlers.

(** A reading of decimal integer literals, for concrete requests. *)
Definition digit (c : Ascii.ascii) : option Z :=
  let k := Z.of_N (Ascii.N_of_ascii c) in
  if (48 <=? k) && (k <=? 57) then Some (k - 48) else None.

Fixpoint digits (s : string) (acc : Z) : jsnum :=
  match s with
  | EmptyString => Num acc
  | String c rest =>
      match digit c with
      | Some d => digits rest (10 * acc + d)
      | None => NaN
      end
  end.

Definition decimal (s : string) : jsnum :=
  match s with
  | EmptyString => Num 0
  | String "-"%char (String c rest) =>
      match digits (String c rest) 0 with
      | Num z => Num (- z)
      | NaN => NaN
      end
  | _ => digits s 0
  end.

(** ** Sample data *)

Module Sample.

Definition strings : Handlers.Strings :=
  {| Handlers.not_found_error := "Oops, the requested route was not found!";
     Handlers.too_large_error := "Oops, the request payload is too large!" |}.

Definition oversized : Error :=
  {| err_type := Some "entity.too.large"; err_message := "request entity too large" |}.

Definition stored_user : Data :=
  <["password" := VStr "right"]> {[ "username" := VStr "a" ]}.

Definition users : list Data := [stored_user].

(** A context whose [authenticate] accepts a record carrying a token. *)
Definition context (docs : list Data) : Application.t :=
  {| Application.authenticate := fun data => Returns (Fulfilled (get data "token"));
     Application.query := fun store => {| store_name := store; storage := collection docs |} |}.

(** Function objects: 0 echoes the record, 1 resolves with a text, 2
    rejects, every other reference throws. *)
Definition heap : Heap := fun callback data =>
  match callback with
  | 0%nat => Returns (Fulfilled (PData data))
  | 1%nat => Returns (Fulfilled (PValue (VStr "audited")))
  | 2%nat => Returns (Rejected (Error_ "hook failed"))
  | _ => Throws (Error_ "not a function")
  end.

(** An ORM whose every operation is rejected. *)
Definition offline : Model :=
  {| save := fun _ => Rejected (Error_ "connection lost");
     exec := fun _ => Rejected (Error_ "connection lost");
     countDocuments := fun _ => Rejected (Error_ "connection lost");
     updateOne := fun _ _ => Rejected (Error_ "connection lost");
     findOneAndRemove := fun _ => Rejected (Error_ "connection lost");
     findOne := fun _ => Rejected (Error_ "connection lost") |}.


(** A sub-route whose after list holds the same function twice. *)
Definition audited_twice : Service.Subservice :=
  {| Service.s_method := "post";
     Service.s_message := Some "Hi, audited!";
     Service.s_error := Some "Oops, not audited!";
     Service.s_authenticate := false;
     Service.s_hooks := Some {| Service.before := None; Service.after := Some [1%nat; 1%nat] |};
     Service.s_callback := Some 0%nat |}.

(** A guarded sub-route with one before-hook and a callback. *)
Definition login : Service.Subservice :=
  {| Service.s_method := "post";
     Service.s_message := Some "Hi, welcome!";
     Service.s_error := Some "Oops, could not log in!";
     Service.s_authenticate := true;
     Service.s_hooks := Some {| Service.before := Some [0%nat]; Service.after := None |};
     Service.s_callback := Some 1%nat |}.

(** A sub-route with a before-hook, a callback and two different
    after-hooks. *)
Definition reviewed : Service.Subservice :=
  {| Service.s_method := "post";
     Service.s_message := Some "Hi, reviewed!";
     Service.s_error := Some "Oops, not reviewed!";
     Service.s_authenticate := false;
     Service.s_hooks :=
       Some {| Service.before := Some [0%nat]; Service.after := Some [0%nat; 1%nat] |};
     Service.s_callback := Some 0%nat |}.

(** A sub-route with before-hooks only. *)
Definition checks_only : Service.Subservice :=
  {| Service.s_method := "post";
     Service.s_message := Some "Hi, checked!";
     Service.s_error := Some "Oops, not checked!";
     Service.s_authenticate := false;
     Service.s_hooks :=
       Some {| Service.before := Some [0%nat; 1%nat]; Service.after := None |};
     Service.s_callback := None |}.

(** A sub-route whose after list is empty. *)
Definition no_after : Service.Subservice :=
  {| Service.s_method := "post";
     Service.s_message := Some "Hi, done!";
     Service.s_error := Some "Oops, failed!";
     Service.s_authenticate := false;
     Service.s_hooks := Some {| Service.before := None; Service.after := Some [] |};
     Service.s_callback := Some 0%nat |}.

(** Function objects that resolve with the [id] field of the record they
    are called with. *)
Definition reader : Heap := fun _ data =>
  Returns (Fulfilled (PValue (get data "id"))).

Definition request (method path : string) (b q : Data) : Request :=
  {| req_method := method; req_path := path; body := b; query := q |}.

End Sample.

(** * Properties *)

Import Service.

(** ** The merged record *)

Lemma spread_query (b q : Data) (k : string) (v : Value) :
  q !! k = Some v -> spread b q !! k = Some v.
Proof. intros H. unfold spread. by apply lookup_union_Some_l. Qed.

Lemma spread_body (b q : Data) (k : string) :
  q !! k = None -> spread b q !! k = b !! k.
Proof. intros H. unfold spread. by apply lookup_union_r. Qed.

Example spread_query_wins :
  spread {[ "a" := VStr "body" ]} {[ "a" := VStr "query" ]} !! "a" = Some (VStr "query").
Proof. reflexivity. Qed.

Example decimal_10 : decimal "10" = Num 10.
Proof. reflexivity. Qed.

Example decimal_word : decimal "ten" = NaN.
Proof. reflexivity. Qed.

(** ** The in-memory collection *)

Lemma satisfies_field (filter doc : Data) (k : string) (v : Value) :
  satisfies filter doc = true -> filter !! k = Some v -> get doc k = v.
Proof.
  unfold satisfies. rewrite forallb_forall. intros Hall Hk.
  apply elem_of_map_to_list, list_elem_of_In in Hk.
  specialize (Hall _ Hk). simpl in Hall.
  by apply bool_decide_eq_true in Hall.
Qed.

Lemma selected_elem (filter : Data) (docs : list Data) (doc : Data) :
  doc ∈ selected filter docs -> doc ∈ docs /\ satisfies filter doc = true.
Proof.
  unfold selected. rewrite !list_elem_of_In, filter_In. tauto.
Qed.

Lemma head_elem {A : Type} (l : list A) (x : A) : head l = Some x -> x ∈ l.
Proof. destruct l; [done|]. intros [= ->]. by left. Qed.

(** ** The fallback handlers *)

Section FallbackHandlers.
Import Handlers.
Variable strings : Strings.

Lemma unmatched_request (routes : list Route) (request : Request) :
  List.filter (matched request) routes = [] ->
  outcome (dispatch routes request) = Unmatched.
Proof. unfold dispatch. by intros ->. Qed.

(** C8. A request no registered route matches is answered by the
    fallback handler with status 404 and an envelope whose payload is the
    request body and whose message and debug are the same fixed
    not-found text. *)
Theorem unmatched_route_404 (routes : list Route) (request : Request) :
  List.filter (matched request) routes = [] ->
  serve strings routes request = not_found strings request
  /\ not_found strings request =
       Respond {| status := 404;
                  sent := {| message := Some (not_found_error strings);
                             payload := PData (body request);
                             debug := Some (not_found_error strings) |} |}
  /\ forall r, serve strings routes request = Respond r ->
       status r = 404
       /\ payload (sent r) = PData (body request)
       /\ message (sent r) = debug (sent r)
       /\ message (sent r) = Some (not_found_error strings).
Proof.
  intros Hnone. unfold serve. rewrite (unmatched_request _ _ Hnone).
  split; [reflexivity|]. split; [reflexivity|].
  intros r [= <-]. by cbn.
Qed.

(** C7. An error whose kind is 'entity.too.large' is answered with status
    413, the fixed too-large message, the request body as payload and the
    error's message as debug, whatever the request; an error of any other
    kind is thrown again as it came. *)
Theorem too_large_or_rethrown (error : Error) (request : Request) :
  (err_type error = Some "entity.too.large" ->
     too_large strings error request =
       Respond {| status := 413;
                  sent := {| message := Some (too_large_error strings);
                             payload := PData (body request);
                             debug := Some (err_message error) |} |})
  /\ (err_type error <> Some "entity.too.large" ->
        too_large strings error request = Raise error)
  /\ (forall routes, outcome (dispatch routes request) = Errored error ->
        serve strings routes request = too_large strings error request).
Proof.
  unfold too_large. repeat split.
  - intros H. by rewrite bool_decide_eq_true_2.
  - intros H. by rewrite bool_decide_eq_false_2.
  - intros routes H. unfold serve. by rewrite H.
Qed.

End FallbackHandlers.

Lemma unmatched_route_404_witness :
  let request := Sample.request "get" "/nowhere" {[ "a" := VNull ]} ∅ in
  let routes := crud decimal "user" (collection []) in
  Handlers.serve Sample.strings routes request = Handlers.not_found Sample.strings request.
Proof.
  intros request routes.
  apply (unmatched_route_404 Sample.strings routes request).
  reflexivity.
Defined.

Lemma too_large_or_rethrown_witness :
  let request := Sample.request "post" "/user" ∅ ∅ in
  Handlers.too_large Sample.strings Sample.oversized request =
    Respond {| status := 413;
               sent := {| message := Some (Handlers.too_large_error Sample.strings);
                          payload := PData ∅;
                          debug := Some "request entity too large" |} |}
  /\ Handlers.too_large Sample.strings (Error_ "boom") request = Raise (Error_ "boom").
Proof.
  intros request. split.
  - apply (proj1 (too_large_or_rethrown Sample.strings Sample.oversized request)).
    reflexivity.
  - apply (proj1 (proj2 (too_large_or_rethrown Sample.strings (Error_ "boom") request))).
    discriminate.
Defined.

(** ** The cache of a store *)

Section StoreCache.
Import Store.
Context {T : Type} (_id : T -> string).

Lemma save_effect (value : T) (cache : Cache T) :
  let cache' := hooks _id save value cache in
  count cache' = count cache + 1
  /\ data cache' !! _id value = Some value
  /\ forall k, k <> _id value -> data cache' !! k = data cache !! k.
Proof.
  cbn. split; [done|]. split; [apply lookup_insert_eq|].
  intros k Hk. by apply lookup_insert_ne.
Qed.

Lemma update_effect (value : T) (cache : Cache T) :
  let cache' := hooks _id update value cache in
  count cache' = count cache
  /\ data cache' !! _id value = Some value
  /\ forall k, k <> _id value -> data cache' !! k = data cache !! k.
Proof.
  cbn. split; [done|]. split; [apply lookup_insert_eq|].
  intros k Hk. by apply lookup_insert_ne.
Qed.

Lemma remove_effect (value : T) (cache : Cache T) :
  let cache' := hooks _id remove value cache in
  count cache' = count cache
  /\ data cache' !! _id value = None
  /\ forall k, k <> _id value -> data cache' !! k = data cache !! k.
Proof.
  cbn. split; [done|]. split; [apply lookup_delete_eq|].
  intros k Hk. by apply lookup_delete_ne.
Qed.

Lemma entries_after_save_remove (value : T) (cache : Cache T) :
  (size (data (hooks _id remove value (hooks _id save value cache)))
   <= size (data cache))%nat.
Proof.
  cbn. rewrite delete_insert_eq.
  apply map_subseteq_size, delete_subseteq.
Qed.

(** The count never falls behind the entries along the events of a
    maintained cache, and the distance between them never shrinks. *)
Lemma step_slack (c c' : Cache T) :
  step _id c c' ->
  count c - Z.of_nat (size (data c)) <= count c' - Z.of_nat (size (data c')).
Proof.
  intros [value cache|value cache Hheld|value cache]; cbn.
  - rewrite map_size_insert. destruct (data cache !! _id value); cbn; lia.
  - rewrite map_size_insert_Some by done. lia.
  - rewrite map_size_delete. destruct (data cache !! _id value); cbn; lia.
Qed.

Lemma rtc_slack (c c' : Cache T) :
  rtc (step _id) c c' ->
  count c - Z.of_nat (size (data c)) <= count c' - Z.of_nat (size (data c')).
Proof.
  induction 1 as [|c c1 c2 Hstep _ IH]; [lia|].
  pose proof (step_slack _ _ Hstep). lia.
Qed.

(** While a saved record has not been removed, the cache holds it; once it
    has been removed, the count is ahead of the entries. *)
Lemma step_held_or_ahead (value : T) (c c' : Cache T) :
  step _id c c' ->
  (is_Some (data c !! _id value) /\ Z.of_nat (size (data c)) <= count c)
  \/ Z.of_nat (size (data c)) < count c ->
  (is_Some (data c' !! _id value) /\ Z.of_nat (size (data c')) <= count c')
  \/ Z.of_nat (size (data c')) < count c'.
Proof.
  intros Hstep H. pose proof (step_slack _ _ Hstep) as Hslack.
  destruct H as [[Hheld Hle]|Hlt]; [|right; lia].
  destruct Hstep as [w cache|w cache Hw|w cache]; cbn in *.
  - left. split; [|lia]. rewrite lookup_insert_is_Some'. by right.
  - left. split; [|lia]. rewrite lookup_insert_is_Some'. by right.
  - destruct (decide (_id w = _id value)) as [Heq|Hne].
    + right. rewrite Heq, map_size_delete_Some by done.
      destruct Hheld as [x Hx].
      assert (size (data cache) <> 0%nat)
        by (apply map_size_ne_0_lookup; eauto).
      lia.
    + left. split; [by rewrite lookup_delete_ne | lia].
Qed.

Lemma rtc_held_or_ahead (value : T) (c c' : Cache T) :
  rtc (step _id) c c' ->
  (is_Some (data c !! _id value) /\ Z.of_nat (size (data c)) <= count c)
  \/ Z.of_nat (size (data c)) < count c ->
  (is_Some (data c' !! _id value) /\ Z.of_nat (size (data c')) <= count c')
  \/ Z.of_nat (size (data c')) < count c'.
Proof.
  induction 1 as [|c c1 c2 Hstep _ IH]; [done|].
  intros H. apply IH. by apply (step_held_or_ahead _ _ _ Hstep).
Qed.

(** C10. The post-save hook stores the record under its identifier and
    adds one to the count; the post-update hook stores the record and keeps
    the count; the post-remove hook deletes the entry of the record and
    keeps the count. Hence after a save followed by a remove of the same
    record (a record with the same identifier) the count exceeds the number
    of entries: at once, on a cache whose count is at least the number of
    its entries, and in the life of a store (from the initial cache,
    through saves, removes and updates of records the cache holds) whatever
    events come before the save, between the save and the remove, and after
    the remove. *)
Theorem cache_count_drifts (value : T) (cache : Cache T) :
  (let saved := hooks _id save value cache in
   count saved = count cache + 1
   /\ data saved !! _id value = Some value
   /\ forall k, k <> _id value -> data saved !! k = data cache !! k)
  /\ (let updated := hooks _id update value cache in
      count updated = count cache
      /\ data updated !! _id value = Some value
      /\ forall k, k <> _id value -> data updated !! k = data cache !! k)
  /\ (let removed := hooks _id remove value cache in
      count removed = count cache
      /\ data removed !! _id value = None
      /\ forall k, k <> _id value -> data removed !! k = data cache !! k)
  /\ (Z.of_nat (size (data cache)) <= count cache ->
      let cache' := hooks _id remove value (hooks _id save value cache) in
      Z.of_nat (size (data cache')) < count cache')
  /\ (rtc (step _id) initial cache ->
      forall c1 c2 removed,
        _id removed = _id value ->
        rtc (step _id) (hooks _id save value cache) c1 ->
        rtc (step _id) (hooks _id remove removed c1) c2 ->
        Z.of_nat (size (data c2)) < count c2).
Proof.
  split; [apply save_effect|]. split; [apply update_effect|].
  split; [apply remove_effect|]. split.
  - intros Hle cache'.
    pose proof (entries_after_save_remove value cache) as Hsize.
    fold cache' in Hsize. subst cache'. cbn [hooks count] in *. lia.
  - intros Hreach c1 c2 removed Hsame Hbetween Hafter.
    pose proof (rtc_slack _ _ Hreach) as Hcoherent. cbn in Hcoherent.
    rewrite map_size_empty in Hcoherent.
    assert ((is_Some (data c1 !! _id value) /\ Z.of_nat (size (data c1)) <= count c1)
            \/ Z.of_nat (size (data c1)) < count c1) as Hc1.
    { apply (rtc_held_or_ahead value _ _ Hbetween). left. split.
      - cbn. rewrite lookup_insert_eq. eauto.
      - pose proof (step_slack _ _ (step_save _id value cache)). lia. }
    assert (Z.of_nat (size (data (hooks _id remove removed c1)))
            < count (hooks _id remove removed c1)) as Hremoved.
    { destruct (step_held_or_ahead value _ _ (step_remove _id removed c1) Hc1)
        as [[Hheld _]|Hlt]; [|done].
      cbn in Hheld. rewrite Hsame, lookup_delete_eq in Hheld. by destruct Hheld. }
    pose proof (rtc_slack _ _ Hafter). lia.
Qed.

End StoreCache.

Lemma cache_count_drifts_witness :
  let saved_b := Store.hooks id Store.save "b" Store.initial in
  let cache :=
    Store.hooks id Store.save "c"
      (Store.hooks id Store.remove "a"
         (Store.hooks id Store.update "b" (Store.hooks id Store.save "a" saved_b))) in
  Z.of_nat (size (Store.data cache)) < Store.count cache.
Proof.
  intros saved_b cache.
  apply (proj2 (proj2 (proj2 (proj2 (cache_count_drifts id "a" saved_b))))
           (rtc_once _ _ (Store.step_save id "b" Store.initial))
           (Store.hooks id Store.update "b" (Store.hooks id Store.save "a" saved_b))
           _ "a").
  - reflexivity.
  - apply rtc_once. apply Store.step_update. vm_compute. eauto.
  - apply rtc_once. apply Store.step_save.
Defined.

(** ** User.authorize *)

Section Authorize.
Import User.
Variable context : Application.t.

Lemma authorize_without_username (data : Data) :
  truthy (get data "username") = false ->
  authorize context data = Throws (Error_ "Oops, username is required!").
Proof. intros H. unfold authorize. by rewrite H. Qed.

Lemma authorize_with_username (data : Data) :
  truthy (get data "username") = true ->
  authorize context data =
    Returns
      (then_ (findOne (storage (Application.query context "user")) (credentials data))
         (fun value =>
            match value with
            | None => Rejected (Error_ "Oops, username or password is incorrect!")
            | Some record => Fulfilled record
            end)).
Proof. intros H. unfold authorize. by rewrite H. Qed.

Lemma authorize_returns_match (docs : list Data) (data record : Data) :
  storage (Application.query context "user") = collection docs ->
  authorize context data = Returns (Fulfilled record) ->
  record ∈ docs
  /\ get record "username" = get data "username"
  /\ get record "password" = get data "password".
Proof.
  intros Hstore. unfold authorize.
  destruct (truthy (get data "username")); cbn; [|discriminate].
  rewrite Hstore. cbn.
  destruct (head _) as [found|] eqn:Hhead; cbn; [|discriminate].
  intros [= ->].
  apply head_elem, selected_elem in Hhead as [Hin Hsat].
  split; [done|]. split.
  - apply (satisfies_field _ _ _ _ Hsat). unfold credentials.
    rewrite lookup_insert_ne by done. apply lookup_singleton_eq.
  - apply (satisfies_field _ _ _ _ Hsat). apply lookup_insert_eq.
Qed.

(** C6. [authorize] throws the validation error when the username is
    missing or empty; otherwise it asks the user store for one record with
    that username and that password, rejects with 'Oops, username or
    password is incorrect!' when the store has none and fulfils with the
    record the store found; the record it fulfils with carries the
    submitted password, so a wrong password never yields the stored
    record. *)
Theorem authorize_checks_credentials (data : Data) :
  let users := storage (Application.query context "user") in
  ((data !! "username" = None \/ data !! "username" = Some (VStr EmptyString)) ->
     authorize context data = Throws (Error_ "Oops, username is required!"))
  /\ (truthy (get data "username") = true ->
      findOne users (credentials data) = Fulfilled None ->
      authorize context data =
        Returns (Rejected (Error_ "Oops, username or password is incorrect!")))
  /\ (truthy (get data "username") = true ->
      forall record,
        findOne users (credentials data) = Fulfilled (Some record) ->
        authorize context data = Returns (Fulfilled record))
  /\ (forall docs record,
        users = collection docs ->
        authorize context data = Returns (Fulfilled record) ->
        record ∈ docs
        /\ get record "username" = get data "username"
        /\ get record "password" = get data "password").
Proof.
  intros users. repeat split.
  - intros [H|H]; apply authorize_without_username; unfold get; by rewrite H.
  - intros Hname Hnone. rewrite (authorize_with_username _ Hname).
    fold users. by rewrite Hnone.
  - intros Hname record Hsome. rewrite (authorize_with_username _ Hname).
    fold users. by rewrite Hsome.
  - eapply authorize_returns_match; eauto.
  - eapply authorize_returns_match; eauto.
  - eapply authorize_returns_match; eauto.
Qed.

End Authorize.

Lemma authorize_checks_credentials_witness :
  let context := Sample.context Sample.users in
  let wrong : Data := <["password" := VStr "wrong"]> {[ "username" := VStr "a" ]} in
  let right : Data := <["password" := VStr "right"]> {[ "username" := VStr "a" ]} in
  User.authorize context ∅ = Throws (Error_ "Oops, username is required!")
  /\ User.authorize context wrong =
       Returns (Rejected (Error_ "Oops, username or password is incorrect!"))
  /\ User.authorize context right = Returns (Fulfilled Sample.stored_user).
Proof.
  intros context wrong right. split; [|split].
  - apply (proj1 (authorize_checks_credentials context ∅)). by left.
  - apply (proj1 (proj2 (authorize_checks_credentials context wrong)));
      vm_compute; reflexivity.
  - apply (proj1 (proj2 (proj2 (authorize_checks_credentials context right))));
      vm_compute; reflexivity.
Defined.

(** ** Service: the handlers of a sub-route *)

Section Subroutes.
Variable fns : Heap.
Variable context : Application.t.
Variable name : string.

(** *** Rejections *)

Lemma hooker_rejected (key : string) (value : Subservice) (callback : Ref)
    (hook : HookKind) (request : Request) (e : Error) :
  fns callback (spread (body request) (query request)) = Returns (Rejected e) ->
  r_handler (addservices_hooker fns name key value callback hook) request =
    {| calls := [Invoke (Fn callback) (spread (body request) (query request))];
       action :=
         Respond {| status := 422;
                    sent := {| message := s_error value;
                               payload := PData (spread (body request) (query request));
                               debug := Some (err_message e) |} |} |}.
Proof. intros H. cbn. by rewrite H. Qed.

Lemma callback_rejected (key : string) (value : Subservice) (callback : Ref)
    (request : Request) (e : Error) :
  fns callback (spread (body request) (query request)) = Returns (Rejected e) ->
  r_handler (callback_route fns name key value callback) request =
    {| calls := [Invoke (Fn callback) (spread (body request) (query request))];
       action :=
         Respond {| status := 422;
                    sent := {| message := s_error value;
                               payload := PData (spread (body request) (query request));
                               debug := Some (err_message e) |} |} |}.
Proof. intros H. cbn. by rewrite H. Qed.

Lemma run_chain_respond (h : Handler) (rest : list Handler) (request : Request)
    (r : Response) :
  action (h request) = Respond r ->
  run_chain (h :: rest) request =
    {| invoked := calls (h request); outcome := Responded r |}.
Proof. intros H. cbn. by rewrite H. Qed.

Lemma run_chain_next (h : Handler) (rest : list Handler) (request : Request)
    (result : option Payload) :
  action (h request) = Next result ->
  run_chain (h :: rest) request =
    {| invoked := calls (h request) ++ invoked (run_chain rest request);
       outcome := outcome (run_chain rest request) |}.
Proof. intros H. cbn. by rewrite H. Qed.

(** C5. A hook or a custom callback whose promise rejects is answered by
    its own handler with status 422, the error message of the descriptor,
    the merged body and query record as payload and the message of the
    exception as debug; the handler does not raise, and the chain ends
    there with that response. *)
Theorem rejection_answered_422 (key : string) (value : Subservice)
    (callback : Ref) (request : Request) (e : Error) :
  let data := spread (body request) (query request) in
  let answer :=
    {| status := 422;
       sent := {| message := s_error value;
                  payload := PData data;
                  debug := Some (err_message e) |} |} in
  fns callback data = Returns (Rejected e) ->
  (forall hook,
     action (r_handler (addservices_hooker fns name key value callback hook) request)
     = Respond answer)
  /\ action (r_handler (callback_route fns name key value callback) request)
     = Respond answer
  /\ (forall hook rest,
        run_chain
          (r_handler (addservices_hooker fns name key value callback hook) :: rest)
          request
        = {| invoked := [Invoke (Fn callback) data]; outcome := Responded answer |})
  /\ (forall rest,
        run_chain (r_handler (callback_route fns name key value callback) :: rest)
          request
        = {| invoked := [Invoke (Fn callback) data]; outcome := Responded answer |}).
Proof.
  intros data answer Hrej. repeat split.
  - intros hook. by rewrite (hooker_rejected _ _ _ _ _ _ Hrej).
  - by rewrite (callback_rejected _ _ _ _ _ Hrej).
  - intros hook rest. erewrite run_chain_respond;
      by rewrite (hooker_rejected _ _ _ _ _ _ Hrej).
  - intros rest. erewrite run_chain_respond;
      by rewrite (callback_rejected _ _ _ _ _ Hrej).
Qed.

End Subroutes.

Lemma rejection_answered_422_witness :
  let value :=
    {| s_method := "post"; s_message := Some "Hi, done!"; s_error := Some "Oops, failed!";
       s_authenticate := false;
       s_hooks := Some {| before := Some [2%nat]; after := None |};
       s_callback := Some 2%nat |} in
  let request := Sample.request "post" "/user/login" {[ "a" := VStr "b" ]} ∅ in
  let answer :=
    {| status := 422;
       sent := {| message := Some "Oops, failed!";
                  payload := PData {[ "a" := VStr "b" ]};
                  debug := Some "hook failed" |} |} in
  action (r_handler (addservices_hooker Sample.heap "user" "login" value 2%nat hook_before)
            request) = Respond answer
  /\ action (r_handler (callback_route Sample.heap "user" "login" value 2%nat) request)
     = Respond answer.
Proof.
  intros value request answer.
  pose proof (rejection_answered_422 Sample.heap "user" "login" value 2%nat request
                (Error_ "hook failed") eq_refl) as (Hhook & Hcallback & _).
  split; [apply Hhook | apply Hcallback].
Defined.

(** ** Service: the routes of a map of sub-routes *)

Section Routing.
Variable fns : Heap.
Variable context : Application.t.
Variable name : string.

Lemma subpath_inj (key key' : string) :
  subpath name key = subpath name key' -> key = key'.
Proof.
  unfold subpath. intros H.
  apply (inj (String.app "/")), (inj (String.app name)) in H.
  by apply (inj (String.app "/")) in H.
Qed.

Lemma forEach_Forall {A : Type} (P : Route -> Prop) (array : option (list A))
    (f : A -> Route) :
  (forall a, P (f a)) -> Forall P (forEach array f).
Proof.
  intros H. destruct array as [l|]; cbn; [|constructor].
  induction l; cbn; constructor; auto.
Qed.

(** Every route of an entry is registered under its method and path. *)
Lemma addservice_place (key : string) (value : Subservice) :
  Forall (fun r => r_method r = s_method value /\ r_path r = subpath name key)
    (addservice fns context name (key, value)).
Proof.
  unfold addservice. repeat apply Forall_app_2.
  - unfold authenticate. destruct (s_authenticate value); repeat constructor.
  - by apply forEach_Forall.
  - destruct (s_callback value); repeat constructor.
  - by apply forEach_Forall.
Qed.

Lemma filter_matched_all (request : Request) (key : string) (value : Subservice) :
  req_method request = s_method value ->
  req_path request = subpath name key ->
  List.filter (matched request) (addservice fns context name (key, value))
  = addservice fns context name (key, value).
Proof.
  intros Hm Hp. pose proof (addservice_place key value) as Hall.
  induction Hall as [|r l [Hrm Hrp] _ IH]; [done|].
  cbn. unfold matched at 1. rewrite Hrm, Hrp, Hm, Hp, !String.eqb_refl. cbn.
  by rewrite IH.
Qed.

Lemma filter_matched_none (request : Request) (key key' : string)
    (value' : Subservice) :
  req_path request = subpath name key ->
  key' <> key ->
  List.filter (matched request) (addservice fns context name (key', value')) = [].
Proof.
  intros Hp Hne. pose proof (addservice_place key' value') as Hall.
  induction Hall as [|r l [Hrm Hrp] _ IH]; [done|].
  cbn. unfold matched at 1. rewrite Hrp, Hp.
  destruct (String.eqb_spec (subpath name key') (subpath name key)) as [Heq|_].
  - by apply subpath_inj in Heq.
  - by rewrite andb_false_r.
Qed.

Lemma filter_matched_absent (request : Request) (key : string)
    (services : Microservices) :
  req_path request = subpath name key ->
  key ∉ fst <$> services ->
  List.filter (matched request) (addservices fns context name services) = [].
Proof.
  intros Hp. induction services as [|[k v] rest IH]; [done|].
  rewrite fmap_cons, not_elem_of_cons. intros [Hne Hnin].
  unfold addservices. cbn [flat_map].
  rewrite List.filter_app, (filter_matched_none _ key) by done.
  by apply IH.
Qed.

(** A request for a sub-route runs the handlers its entry registered, in
    the order the entry registered them. *)
Lemma dispatch_addservices (services : Microservices) (key : string)
    (value : Subservice) (request : Request) :
  NoDup (fst <$> services) ->
  (key, value) ∈ services ->
  req_method request = s_method value ->
  req_path request = subpath name key ->
  dispatch (addservices fns context name services) request
  = run_chain (map r_handler (addservice fns context name (key, value))) request.
Proof.
  intros Hnd Hin Hm Hp. unfold dispatch. f_equal. f_equal.
  induction services as [|[k v] rest IH]; [by apply elem_of_nil in Hin|].
  rewrite fmap_cons in Hnd. apply NoDup_cons in Hnd as [Hfresh Hnd].
  unfold addservices. cbn [flat_map]. rewrite List.filter_app.
  apply elem_of_cons in Hin as [[= <- <-]|Hin].
  - rewrite filter_matched_all by done.
    fold (addservices fns context name rest).
    rewrite (filter_matched_absent _ key) by done.
    by rewrite app_nil_r.
  - assert (k <> key) as Hne.
    { intros ->. apply Hfresh. by apply (list_elem_of_fmap_2 fst _ (key, value)). }
    rewrite (filter_matched_none _ key) by done.
    by apply IH.
Qed.

(** *** The authentication gate *)

Lemma authenticate_flagged (key : string) (value : Subservice) :
  s_authenticate value = true ->
  exists gate, authenticate context name value key = [gate]
    /\ forall request,
         r_handler gate request =
           let data := spread (body request) (query request) in
           {| calls := [Invoke Authenticate data];
              action :=
                match Application.authenticate context data with
                | Throws e => Raise e
                | Returns (Fulfilled v) =>
                    if truthy v then Next None
                    else Respond
                           {| status := 412;
                              sent := {| message := Some "Oops, authentication error occurred!";
                                         payload := PData data;
                                         debug := Some "Oops, authentication error occurred!" |} |}
                | Returns (Rejected e) =>
                    Respond
                      {| status := 412;
                         sent := {| message := Some "Oops, authentication error occurred!";
                                    payload := PData data;
                                    debug := Some (err_message e) |} |}
                end |}.
Proof.
  intros Hflag. unfold authenticate. rewrite Hflag.
  eexists. split; [reflexivity|]. intros request. reflexivity.
Qed.

(** C4. A sub-route whose descriptor asks for authentication has its gate
    registered ahead of every hook and callback handler of its method and
    path. The gate calls the context's [authenticate] predicate on the
    merged body and query record; when the result is falsy or the promise
    rejects, the request is answered with status 412 and an error envelope
    and nothing but the predicate was called; on a truthy result the gate
    calls [next()] with no payload. *)
Theorem gate_guards_subroute (services : Microservices) (key : string)
    (value : Subservice) (request : Request) :
  NoDup (fst <$> services) ->
  (key, value) ∈ services ->
  s_authenticate value = true ->
  req_method request = s_method value ->
  req_path request = subpath name key ->
  let data := spread (body request) (query request) in
  let refused text :=
    {| invoked := [Invoke Authenticate data];
       outcome :=
         Responded {| status := 412;
                      sent := {| message := Some "Oops, authentication error occurred!";
                                 payload := PData data;
                                 debug := Some text |} |} |} in
  exists gate rest,
    authenticate context name value key = [gate]
    /\ addservice fns context name (key, value) = gate :: rest
    /\ (forall v,
          Application.authenticate context data = Returns (Fulfilled v) ->
          truthy v = false ->
          dispatch (addservices fns context name services) request
          = refused "Oops, authentication error occurred!")
    /\ (forall e,
          Application.authenticate context data = Returns (Rejected e) ->
          dispatch (addservices fns context name services) request
          = refused (err_message e))
    /\ (forall v,
          Application.authenticate context data = Returns (Fulfilled v) ->
          truthy v = true ->
          r_handler gate request =
            {| calls := [Invoke Authenticate data]; action := Next None |}).
Proof.
  intros Hnd Hin Hflag Hm Hp data refused.
  destruct (authenticate_flagged key value Hflag) as (gate & Hgate & Hrun).
  exists gate. eexists. split; [done|].
  split; [unfold addservice; rewrite Hgate; reflexivity|].
  rewrite (dispatch_addservices _ _ _ _ Hnd Hin Hm Hp).
  unfold addservice. rewrite Hgate. cbn [app map run_chain].
  rewrite Hrun. cbn. fold data.
  repeat split.
  - intros v -> ->. reflexivity.
  - intros e ->. reflexivity.
  - intros v -> ->. reflexivity.
Qed.

End Routing.

Lemma gate_guards_subroute_witness :
  let guarded :=
    {| s_method := "get"; s_message := Some "Hi, here it is!"; s_error := Some "Oops!";
       s_authenticate := true;
       s_hooks := Some {| before := Some [0%nat]; after := Some [1%nat] |};
       s_callback := Some 0%nat |} in
  let open :=
    {| s_method := "get"; s_message := None; s_error := None;
       s_authenticate := false; s_hooks := None; s_callback := Some 0%nat |} in
  let services := [("profile", guarded); ("open", open)] in
  let request := Sample.request "get" "/user/profile" ∅ {[ "token" := VStr EmptyString ]} in
  dispatch (addservices Sample.heap (Sample.context []) "user" services) request
  = {| invoked := [Invoke Authenticate {[ "token" := VStr EmptyString ]}];
       outcome :=
         Responded {| status := 412;
                      sent := {| message := Some "Oops, authentication error occurred!";
                                 payload := PData {[ "token" := VStr EmptyString ]};
                                 debug := Some "Oops, authentication error occurred!" |} |} |}.
Proof.
  intros guarded open services request.
  destruct (gate_guards_subroute Sample.heap (Sample.context []) "user" services
              "profile" guarded request) as (gate & rest & _ & _ & Hfalsy & _).
  - apply (bool_decide_unpack _). vm_compute. exact I.
  - apply list_elem_of_here.
  - reflexivity.
  - reflexivity.
  - reflexivity.
  - apply (Hfalsy (VStr EmptyString)); reflexivity.
Defined.

(** ** Service: the data record of every handler *)

Section DataRecord.
Variable fns : Heap.
Variable context : Application.t.
Variable StringToNumber : string -> jsnum.
Variable mongoose : Model.

Ltac one_call :=
  let request := fresh "request" in
  let i := fresh "i" in
  let H := fresh "H" in
  intros request i H; cbn in H;
  apply list_elem_of_singleton in H; by subst i.

Lemma hooker_rebuilds (name key : string) (value : Subservice) (callback : Ref)
    (hook : HookKind) :
  rebuilds_data (r_handler (addservices_hooker fns name key value callback hook)).
Proof. one_call. Qed.

Lemma callback_rebuilds (name key : string) (value : Subservice) (callback : Ref) :
  rebuilds_data (r_handler (callback_route fns name key value callback)).
Proof. one_call. Qed.

Lemma gate_rebuilds (name key : string) (value : Subservice) :
  Forall (fun r => rebuilds_data (r_handler r)) (authenticate context name value key).
Proof.
  unfold authenticate. destruct (s_authenticate value); repeat constructor.
  one_call.
Qed.

Lemma hooker_route_rebuilds (name key : string) (callback : Ref) :
  rebuilds_data (r_handler (hooker_route fns name key callback)).
Proof. one_call. Qed.

Lemma crud_get_rebuilds (name : string) :
  rebuilds_data (crud_get StringToNumber name mongoose).
Proof.
  intros request i. unfold crud_get.
  destruct (read _ _ _) as [data' p]. cbn.
  intros H. apply list_elem_of_singleton in H. by subst i.
Qed.

Lemma crud_rebuilds (name : string) :
  Forall (fun r => rebuilds_data (r_handler r)) (crud StringToNumber name mongoose).
Proof.
  unfold crud. repeat constructor; cbn [r_handler];
    first [apply crud_get_rebuilds | one_call].
Qed.

Lemma addservices_rebuilds (name : string) (services : Microservices) :
  Forall (fun r => rebuilds_data (r_handler r))
    (addservices fns context name services).
Proof.
  unfold addservices. induction services as [|[key value] rest IH]; [constructor|].
  cbn [flat_map]. apply Forall_app_2; [|done].
  unfold addservice. repeat apply Forall_app_2.
  - apply gate_rebuilds.
  - apply forEach_Forall. intros a. apply hooker_rebuilds.
  - destruct (s_callback value); repeat constructor. apply callback_rebuilds.
  - apply forEach_Forall. intros a. apply hooker_rebuilds.
Qed.

Lemma hooker_rebuilds_all (name : string) (hooks : VerbHooks) :
  Forall (fun r => rebuilds_data (r_handler r)) (hooker fns name hooks).
Proof.
  unfold hooker. induction hooks as [|[key array] rest IH]; [constructor|].
  cbn [flat_map]. apply Forall_app_2; [|done].
  apply forEach_Forall. intros a. apply hooker_route_rebuilds.
Qed.

Lemma constructor_rebuilds (properties : Properties) :
  Forall (fun r => rebuilds_data (r_handler r))
    (constructor fns StringToNumber mongoose properties).
Proof.
  unfold constructor. repeat apply Forall_app_2.
  - apply hooker_rebuilds_all.
  - destruct (store properties) as [s|]; [|constructor].
    destruct (String.eqb s EmptyString); [constructor|apply crud_rebuilds].
  - apply hooker_rebuilds_all.
Qed.

Lemma run_chain_rebuilds (handlers : list Handler) (request : Request) :
  Forall rebuilds_data handlers ->
  forall i, i ∈ invoked (run_chain handlers request) ->
    arg i = spread (body request) (query request).
Proof.
  induction 1 as [|h rest Hh _ IH]; cbn; [intros i Hi; by apply elem_of_nil in Hi|].
  intros i. destruct (action (h request)) eqn:Hact; cbn.
  - apply Hh.
  - rewrite elem_of_app. intros [Hi|Hi]; [by apply Hh | by apply IH].
  - apply Hh.
Qed.

Lemma dispatch_rebuilds (routes : list Route) (request : Request) :
  Forall (fun r => rebuilds_data (r_handler r)) routes ->
  forall i, i ∈ invoked (dispatch routes request) ->
    arg i = spread (body request) (query request).
Proof.
  intros Hall. unfold dispatch. apply run_chain_rebuilds.
  induction Hall as [|r l Hr _ IH]; cbn; [constructor|].
  destruct (matched request r); cbn; [constructor|]; done.
Qed.

(** *** What each handler asks of its collaborator *)

(** The handler of a hook reaches the heap only through what the hook
    returns on the merged record, and that outcome decides what it does. *)
Lemma hook_handler_asks (name key : string) (value : Subservice) (f : Ref)
    (hook : HookKind) (request : Request) :
  let data := spread (body request) (query request) in
  exists k : Call Payload -> Run,
    (forall fns',
       r_handler (addservices_hooker fns' name key value f hook) request = k (fns' f data))
    /\ (forall e, k (Throws e) = {| calls := [Invoke (Fn f) data]; action := Raise e |})
    /\ (forall e,
          k (Returns (Rejected e))
          = {| calls := [Invoke (Fn f) data];
               action :=
                 Respond {| status := 422;
                            sent := {| message := s_error value;
                                       payload := PData data;
                                       debug := Some (err_message e) |} |} |})
    /\ (forall result,
          calls (k (Returns (Fulfilled result))) = [Invoke (Fn f) data]
          /\ (hook = hook_before ->
              action (k (Returns (Fulfilled result))) = Next (Some result))
          /\ (forall array,
                hook = hook_after -> hooks_after value = Some array ->
                action (k (Returns (Fulfilled result)))
                = if indexOf f array =? Z.of_nat (length array) - 1
                  then Respond {| status := 200;
                                  sent := {| message := s_message value;
                                             payload := result;
                                             debug := None |} |}
                  else Next (Some result))).
Proof.
  intros data.
  exists (fun outcome =>
            r_handler (addservices_hooker (fun _ _ => outcome) name key value f hook)
              request).
  split; [reflexivity|]. split; [reflexivity|]. split; [reflexivity|].
  intros result. split; [reflexivity|]. split.
  - by intros ->.
  - intros array -> Harray. cbn. by rewrite Harray.
Qed.

Lemma callback_handler_asks (name key : string) (value : Subservice) (c : Ref)
    (request : Request) :
  let data := spread (body request) (query request) in
  exists k : Call Payload -> Run,
    (forall fns',
       r_handler (callback_route fns' name key value c) request = k (fns' c data))
    /\ (forall e, k (Throws e) = {| calls := [Invoke (Fn c) data]; action := Raise e |})
    /\ (forall e,
          k (Returns (Rejected e))
          = {| calls := [Invoke (Fn c) data];
               action :=
                 Respond {| status := 422;
                            sent := {| message := s_error value;
                                       payload := PData data;
                                       debug := Some (err_message e) |} |} |})
    /\ (forall result,
          k (Returns (Fulfilled result))
          = {| calls := [Invoke (Fn c) data];
               action :=
                 match hooks_after value with
                 | None =>
                     Respond {| status := 200;
                                sent := {| message := s_message value;
                                           payload := result;
                                           debug := None |} |}
                 | Some _ => Next (Some result)
                 end |}).
Proof.
  intros data.
  exists (fun outcome =>
            r_handler (callback_route (fun _ _ => outcome) name key value c) request).
  split; [reflexivity|]. split; [reflexivity|]. split; [reflexivity|].
  intros result. cbn. by destruct (hooks_after value).
Qed.

Lemma gate_asks (name key : string) (value : Subservice) (request : Request) :
  let data := spread (body request) (query request) in
  let refused text :=
    {| calls := [Invoke Authenticate data];
       action :=
         Respond {| status := 412;
                    sent := {| message := Some "Oops, authentication error occurred!";
                               payload := PData data;
                               debug := Some text |} |} |} in
  exists k : Call Value -> Run,
    (forall context' gate,
       gate ∈ authenticate context' name value key ->
       r_handler gate request = k (Application.authenticate context' data))
    /\ (forall e, k (Throws e) = {| calls := [Invoke Authenticate data]; action := Raise e |})
    /\ (forall e, k (Returns (Rejected e)) = refused (err_message e))
    /\ (forall v,
          k (Returns (Fulfilled v))
          = if truthy v
            then {| calls := [Invoke Authenticate data]; action := Next None |}
            else refused "Oops, authentication error occurred!").
Proof.
  intros data refused.
  exists (fun outcome =>
            {| calls := [Invoke Authenticate data];
               action :=
                 match outcome with
                 | Throws e => Raise e
                 | Returns (Fulfilled v) =>
                     if truthy v then Next None
                     else action (refused "Oops, authentication error occurred!")
                 | Returns (Rejected e) => action (refused (err_message e))
                 end |}).
  split; [|split; [reflexivity|split; [reflexivity|]]].
  - intros context' gate. unfold authenticate.
    destruct (s_authenticate value); [|intros H; by apply elem_of_nil in H].
    intros H. apply list_elem_of_singleton in H as ->. reflexivity.
  - intros v. by destruct (truthy v).
Qed.

Lemma service_hook_asks (name key : string) (f : Ref) (request : Request) :
  let data := spread (body request) (query request) in
  exists k : Call Payload -> Run,
    (forall fns', r_handler (hooker_route fns' name key f) request = k (fns' f data))
    /\ (forall e, k (Throws e) = {| calls := [Invoke (Fn f) data]; action := Raise e |})
    /\ (forall e,
          k (Returns (Rejected e))
          = {| calls := [Invoke (Fn f) data];
               action :=
                 Respond {| status := 422;
                            sent := {| message := Some "Oops, a service error occurred!";
                                       payload := PData data;
                                       debug := Some (err_message e) |} |} |})
    /\ (forall result,
          k (Returns (Fulfilled result))
          = {| calls := [Invoke (Fn f) data];
               action :=
                 Respond {| status := 201;
                            sent := {| message := None;
                                       payload := PData data;
                                       debug := None |} |} |}).
Proof.
  intros data.
  exists (fun outcome => r_handler (hooker_route (fun _ _ => outcome) name key f) request).
  repeat split; reflexivity.
Qed.

(** Each CRUD handler hands the merged record to its operation and answers
    with what the operation settles to. *)
Lemma crud_handlers_ask (name : string) (request : Request) :
  let data := spread (body request) (query request) in
  let answer op status text value debug :=
    {| calls := [Invoke (Crud op) data];
       action :=
         Respond {| status := status;
                    sent := {| message := Some text; payload := value; debug := debug |} |} |} in
  (exists k : Promise Payload -> Run,
     (forall mongoose', crud_post name mongoose' request = k (create mongoose' data))
     /\ (forall v, k (Fulfilled v)
                   = answer Create 201 ("Hi, an " +:+ name +:+ " has been created!") v None)
     /\ (forall e, k (Rejected e)
                   = answer Create 422 ("Oops, could not create " +:+ name +:+ "!")
                       (PData data) (Some (err_message e))))
  /\ (exists k : Data * Promise Payload -> Run,
        (forall mongoose',
           crud_get StringToNumber name mongoose' request
           = k (read StringToNumber mongoose' data))
        /\ (forall d v, k (d, Fulfilled v)
                        = answer Read 200 "Hi, a data payload is provided!" v None)
        /\ (forall d e, k (d, Rejected e)
                        = answer Read 404 ("Oops, could not find " +:+ name +:+ " list!")
                            (PData d) (Some (err_message e))))
  /\ (exists k : Promise Payload -> Run,
        (forall mongoose', crud_put name mongoose' request = k (update name mongoose' data))
        /\ (forall v, k (Fulfilled v)
                      = answer Update 200 ("Hi, an " +:+ name +:+ " has been updated!") v None)
        /\ (forall e, k (Rejected e)
                      = answer Update 413 ("Oops, could not update " +:+ name +:+ "!")
                          (PData data) (Some (err_message e))))
  /\ (exists k : Promise Payload -> Run,
        (forall mongoose', crud_delete name mongoose' request = k (delete_ name mongoose' data))
        /\ (forall v, k (Fulfilled v)
                      = answer Delete 200 ("Hi, an " +:+ name +:+ " has been removed!") v None)
        /\ (forall e, k (Rejected e)
                      = answer Delete 422 ("Oops, could not remove " +:+ name +:+ "!")
                          (PData data) (Some (err_message e)))).
Proof.
  intros data answer. split; [|split; [|split]].
  - exists (fun p =>
              match p with
              | Fulfilled v =>
                  answer Create 201 ("Hi, an " +:+ name +:+ " has been created!") v None
              | Rejected e =>
                  answer Create 422 ("Oops, could not create " +:+ name +:+ "!")
                    (PData data) (Some (err_message e))
              end).
    split; [|split; reflexivity].
    intros mongoose'. unfold crud_post. fold data. by destruct (create mongoose' data).
  - exists (fun dp =>
              match dp with
              | (d, Fulfilled v) =>
                  answer Read 200 "Hi, a data payload is provided!" v None
              | (d, Rejected e) =>
                  answer Read 404 ("Oops, could not find " +:+ name +:+ " list!")
                    (PData d) (Some (err_message e))
              end).
    split; [|split; reflexivity].
    intros mongoose'. unfold crud_get. fold data.
    by destruct (read StringToNumber mongoose' data) as [d [v|e]].
  - exists (fun p =>
              match p with
              | Fulfilled v =>
                  answer Update 200 ("Hi, an " +:+ name +:+ " has been updated!") v None
              | Rejected e =>
                  answer Update 413 ("Oops, could not update " +:+ name +:+ "!")
                    (PData data) (Some (err_message e))
              end).
    split; [|split; reflexivity].
    intros mongoose'. unfold crud_put. fold data.
    by destruct (update name mongoose' data).
  - exists (fun p =>
              match p with
              | Fulfilled v =>
                  answer Delete 200 ("Hi, an " +:+ name +:+ " has been removed!") v None
              | Rejected e =>
                  answer Delete 422 ("Oops, could not remove " +:+ name +:+ "!")
                    (PData data) (Some (err_message e))
              end).
    split; [|split; reflexivity].
    intros mongoose'. unfold crud_delete. fold data.
    by destruct (delete_ name mongoose' data).
Qed.

(** The operations take their arguments from the record they are handed. *)
Lemma operations_use_record (name : string) (mongoose' : Model) (data : Data) :
  create mongoose' data = then_ (save mongoose' data) (fun v => Fulfilled (PData v))
  /\ update name mongoose' data
     = then_ (updateOne mongoose' {[ "_id" := get data "_id" ]} data)
         (fun value =>
            match value with
            | None => Rejected (Error_ ("Oops, " +:+ name +:+ " does not exist!"))
            | Some _ => Fulfilled (PData data)
            end)
  /\ delete_ name mongoose' data
     = then_ (findOneAndRemove mongoose' {[ "_id" := get data "_id" ]})
         (fun value =>
            match value with
            | None => Rejected (Error_ ("Oops, could not remove " +:+ name))
            | Some _ => Fulfilled (PData data)
            end).
Proof. repeat split. Qed.

(** *** Which handlers the routes hold *)

Lemma forEach_elem {A : Type} (array : option (list A)) (f : A -> Route) (r : Route) :
  r ∈ forEach array f -> exists a, r = f a.
Proof.
  destruct array as [l|]; cbn; [|intros H; by apply elem_of_nil in H].
  intros H. apply list_elem_of_In, in_map_iff in H as (a & <- & _). by exists a.
Qed.

Lemma addservices_routes (name : string) (services : Microservices) (r : Route) :
  r ∈ addservices fns context name services ->
  exists key value,
    (key, value) ∈ services
    /\ (r ∈ authenticate context name value key
        \/ (exists f hook, r = addservices_hooker fns name key value f hook)
        \/ (exists c, r = callback_route fns name key value c)).
Proof.
  unfold addservices. intros H.
  apply list_elem_of_In, in_flat_map in H as ([key value] & Hentry & H).
  exists key, value. split; [by apply list_elem_of_In|].
  apply list_elem_of_In in H. unfold addservice in H.
  rewrite !elem_of_app in H. destruct H as [H|[H|[H|H]]].
  - by left.
  - right. left. apply forEach_elem in H as [f ->]. eauto.
  - right. right. destruct (s_callback value) as [c|]; [|by apply elem_of_nil in H].
    apply list_elem_of_singleton in H as ->. eauto.
  - right. left. apply forEach_elem in H as [f ->]. eauto.
Qed.

Lemma hooker_routes (name : string) (hooks : VerbHooks) (r : Route) :
  r ∈ hooker fns name hooks -> exists key f, r = hooker_route fns name key f.
Proof.
  unfold hooker. intros H.
  apply list_elem_of_In, in_flat_map in H as ([key array] & _ & H).
  apply list_elem_of_In, forEach_elem in H as [f ->]. eauto.
Qed.

Lemma constructor_routes (properties : Properties) (r : Route) :
  r ∈ constructor fns StringToNumber mongoose properties ->
  (exists key f, r = hooker_route fns (name properties) key f)
  \/ r_handler r ∈ [ crud_post (name properties) mongoose;
                     crud_get StringToNumber (name properties) mongoose;
                     crud_put (name properties) mongoose;
                     crud_delete (name properties) mongoose ].
Proof.
  unfold constructor. rewrite !elem_of_app. intros [H|[H|H]].
  - left. by apply hooker_routes in H.
  - right. destruct (store properties) as [s|]; [|by apply elem_of_nil in H].
    destruct (String.eqb s EmptyString); [by apply elem_of_nil in H|].
    unfold crud in H.
    repeat (apply elem_of_cons in H as [->|H]; [cbn; set_solver|]).
    by apply elem_of_nil in H.
  - left. by apply hooker_routes in H.
Qed.

(** C9. Every handler of every route (the gate, the before-hooks, the
    custom callback, the after-hooks, the four CRUD handlers and the
    service-wide hooks) builds the record
    [{...request.body, ...request.query}] from the request alone and hands
    it to its collaborator: a field of the query string overrides the field
    of the same name in the body, a field only the body has is kept. The
    routes hold no other handlers; each handler reaches its collaborator
    (the hook, the callback, the [authenticate] predicate, the CRUD
    operation) only through what it returns on that record, and what it
    returns there decides the answer, so no handler receives what an
    earlier hook resolved with. *)
Theorem every_handler_rebuilds_data (properties : Properties)
    (services : Microservices) (request : Request) :
  let routes :=
    (constructor fns StringToNumber mongoose properties
     ++ addservices fns context (name properties) services)%list in
  let data := spread (body request) (query request) in
  let refused text :=
    {| calls := [Invoke Authenticate data];
       action :=
         Respond {| status := 412;
                    sent := {| message := Some "Oops, authentication error occurred!";
                               payload := PData data;
                               debug := Some text |} |} |} in
  let failed callee text e :=
    {| calls := [Invoke callee data];
       action :=
         Respond {| status := 422;
                    sent := {| message := text;
                               payload := PData data;
                               debug := Some (err_message e) |} |} |} in
  let answer op status text value debug :=
    {| calls := [Invoke (Crud op) data];
       action :=
         Respond {| status := status;
                    sent := {| message := Some text; payload := value; debug := debug |} |} |} in
  (forall r i, r ∈ routes -> i ∈ calls (r_handler r request) -> arg i = data)
  /\ (forall k v, query request !! k = Some v -> data !! k = Some v)
  /\ (forall k, query request !! k = None -> data !! k = body request !! k)
  /\ (forall i, i ∈ invoked (dispatch routes request) -> arg i = data)
  /\ (forall r, r ∈ routes ->
        (exists key f, r = hooker_route fns (name properties) key f)
        \/ r_handler r ∈ [ crud_post (name properties) mongoose;
                           crud_get StringToNumber (name properties) mongoose;
                           crud_put (name properties) mongoose;
                           crud_delete (name properties) mongoose ]
        \/ exists key value,
             (key, value) ∈ services
             /\ (r ∈ authenticate context (name properties) value key
                 \/ (exists f hook,
                       r = addservices_hooker fns (name properties) key value f hook)
                 \/ (exists c, r = callback_route fns (name properties) key value c)))
  /\ (forall name key value,
        exists k : Call Value -> Run,
          (forall context' gate,
             gate ∈ authenticate context' name value key ->
             r_handler gate request = k (Application.authenticate context' data))
          /\ (forall e, k (Throws e)
                        = {| calls := [Invoke Authenticate data]; action := Raise e |})
          /\ (forall e, k (Returns (Rejected e)) = refused (err_message e))
          /\ (forall v,
                k (Returns (Fulfilled v))
                = if truthy v
                  then {| calls := [Invoke Authenticate data]; action := Next None |}
                  else refused "Oops, authentication error occurred!"))
  /\ (forall name key value f hook,
        exists k : Call Payload -> Run,
          (forall fns',
             r_handler (addservices_hooker fns' name key value f hook) request
             = k (fns' f data))
          /\ (forall e, k (Throws e)
                        = {| calls := [Invoke (Fn f) data]; action := Raise e |})
          /\ (forall e, k (Returns (Rejected e)) = failed (Fn f) (s_error value) e)
          /\ (forall result,
                calls (k (Returns (Fulfilled result))) = [Invoke (Fn f) data]
                /\ (hook = hook_before ->
                    action (k (Returns (Fulfilled result))) = Next (Some result))
                /\ (forall array,
                      hook = hook_after -> hooks_after value = Some array ->
                      action (k (Returns (Fulfilled result)))
                      = if indexOf f array =? Z.of_nat (length array) - 1
                        then Respond {| status := 200;
                                        sent := {| message := s_message value;
                                                   payload := result;
                                                   debug := None |} |}
                        else Next (Some result))))
  /\ (forall name key value c,
        exists k : Call Payload -> Run,
          (forall fns',
             r_handler (callback_route fns' name key value c) request = k (fns' c data))
          /\ (forall e, k (Throws e)
                        = {| calls := [Invoke (Fn c) data]; action := Raise e |})
          /\ (forall e, k (Returns (Rejected e)) = failed (Fn c) (s_error value) e)
          /\ (forall result,
                k (Returns (Fulfilled result))
                = {| calls := [Invoke (Fn c) data];
                     action :=
                       match hooks_after value with
                       | None =>
                           Respond {| status := 200;
                                      sent := {| message := s_message value;
                                                 payload := result;
                                                 debug := None |} |}
                       | Some _ => Next (Some result)
                       end |}))
  /\ (forall name key f,
        exists k : Call Payload -> Run,
          (forall fns', r_handler (hooker_route fns' name key f) request = k (fns' f data))
          /\ (forall e, k (Throws e)
                        = {| calls := [Invoke (Fn f) data]; action := Raise e |})
          /\ (forall e,
                k (Returns (Rejected e))
                = failed (Fn f) (Some "Oops, a service error occurred!") e)
          /\ (forall result,
                k (Returns (Fulfilled result))
                = {| calls := [Invoke (Fn f) data];
                     action :=
                       Respond {| status := 201;
                                  sent := {| message := None;
                                             payload := PData data;
                                             debug := None |} |} |}))
  /\ (forall name,
        (exists k : Promise Payload -> Run,
           (forall mongoose', crud_post name mongoose' request = k (create mongoose' data))
           /\ (forall v,
                 k (Fulfilled v)
                 = answer Create 201 ("Hi, an " +:+ name +:+ " has been created!") v None)
           /\ (forall e,
                 k (Rejected e)
                 = answer Create 422 ("Oops, could not create " +:+ name +:+ "!")
                     (PData data) (Some (err_message e))))
        /\ (exists k : Data * Promise Payload -> Run,
              (forall mongoose',
                 crud_get StringToNumber name mongoose' request
                 = k (read StringToNumber mongoose' data))
              /\ (forall d v,
                    k (d, Fulfilled v)
                    = answer Read 200 "Hi, a data payload is provided!" v None)
              /\ (forall d e,
                    k (d, Rejected e)
                    = answer Read 404 ("Oops, could not find " +:+ name +:+ " list!")
                        (PData d) (Some (err_message e))))
        /\ (exists k : Promise Payload -> Run,
              (forall mongoose',
                 crud_put name mongoose' request = k (update name mongoose' data))
              /\ (forall v,
                    k (Fulfilled v)
                    = answer Update 200 ("Hi, an " +:+ name +:+ " has been updated!") v None)
              /\ (forall e,
                    k (Rejected e)
                    = answer Update 413 ("Oops, could not update " +:+ name +:+ "!")
                        (PData data) (Some (err_message e))))
        /\ (exists k : Promise Payload -> Run,
              (forall mongoose',
                 crud_delete name mongoose' request = k (delete_ name mongoose' data))
              /\ (forall v,
                    k (Fulfilled v)
                    = answer Delete 200 ("Hi, an " +:+ name +:+ " has been removed!") v None)
              /\ (forall e,
                    k (Rejected e)
                    = answer Delete 422 ("Oops, could not remove " +:+ name +:+ "!")
                        (PData data) (Some (err_message e)))))
  /\ (forall name mongoose' record,
        create mongoose' record
        = then_ (save mongoose' record) (fun v => Fulfilled (PData v))
        /\ update name mongoose' record
           = then_ (updateOne mongoose' {[ "_id" := get record "_id" ]} record)
               (fun value =>
                  match value with
                  | None => Rejected (Error_ ("Oops, " +:+ name +:+ " does not exist!"))
                  | Some _ => Fulfilled (PData record)
                  end)
        /\ delete_ name mongoose' record
           = then_ (findOneAndRemove mongoose' {[ "_id" := get record "_id" ]})
               (fun value =>
                  match value with
                  | None => Rejected (Error_ ("Oops, could not remove " +:+ name))
                  | Some _ => Fulfilled (PData record)
                  end)).
Proof.
  intros routes data refused failed answer.
  assert (Forall (fun r => rebuilds_data (r_handler r)) routes) as Hall.
  { apply Forall_app_2; [apply constructor_rebuilds | apply addservices_rebuilds]. }
  split; [intros r i Hr; rewrite Forall_forall in Hall; by apply Hall|].
  split; [intros k v; apply spread_query|].
  split; [intros k; apply spread_body|].
  split; [by apply dispatch_rebuilds|].
  split.
  { intros r Hr. apply elem_of_app in Hr as [Hr|Hr].
    - apply constructor_routes in Hr as [Hr|Hr]; [by left | right; by left].
    - right. right. by apply addservices_routes. }
  split; [intros name key value; apply gate_asks|].
  split; [intros name key value f hook; apply hook_handler_asks|].
  split; [intros name key value c; apply callback_handler_asks|].
  split; [intros name key f; apply service_hook_asks|].
  split; [intros name; apply crud_handlers_ask|].
  intros name mongoose' record. apply operations_use_record.
Qed.

End DataRecord.

Lemma every_handler_rebuilds_data_witness :
  let request :=
    Sample.request "post" "/user/login" {[ "id" := VStr "body" ]} {[ "id" := VStr "query" ]} in
  spread (body request) (query request) !! "id" = Some (VStr "query")
  /\ action
       (r_handler (addservices_hooker Sample.reader "user" "login" Sample.login 0%nat
                     hook_before) request)
     = Next (Some (PValue (VStr "query")))
  /\ action (crud_post "user" Sample.offline request)
     = Respond {| status := 422;
                  sent := {| message := Some "Oops, could not create user!";
                             payload := PData (spread (body request) (query request));
                             debug := Some "connection lost" |} |}.
Proof.
  intros request.
  pose proof (every_handler_rebuilds_data Sample.heap (Sample.context []) decimal
                (collection []) {| name := "user"; store := Some "user"; hooks := None |}
                [("login", Sample.login)] request)
    as (_ & Hquery & _ & _ & _ & _ & Hhook & _ & _ & Hcrud & _).
  split; [apply Hquery; reflexivity|]. split.
  - destruct (Hhook "user" "login" Sample.login 0%nat hook_before)
      as (k & Hk & _ & _ & Hfulfilled).
    rewrite Hk.
    exact (proj1 (proj2 (Hfulfilled (PValue (VStr "query")))) eq_refl).
  - destruct (Hcrud "user") as ((k & Hk & _ & Hrejected) & _).
    rewrite Hk.
    exact (f_equal action (Hrejected (Error_ "connection lost"))).
Defined.

(** ** Service: reading a page *)

Section Reading.
Variable StringToNumber : string -> jsnum.

Lemma coerce_same (k : string) (data : Data) :
  get (coerce StringToNumber k data) k = VNum (Number StringToNumber (get data k)).
Proof.
  unfold coerce. destruct (get data k) eqn:Hk; try done;
    unfold get; by rewrite lookup_insert_eq.
Qed.

Lemma coerce_other (k k' : string) (data : Data) :
  k <> k' -> coerce StringToNumber k data !! k' = data !! k'.
Proof.
  intros Hne. unfold coerce. destruct (get data k); try done;
    by rewrite lookup_insert_ne.
Qed.

Lemma delete_coerce (k : string) (data : Data) :
  delete k (coerce StringToNumber k data) = delete k data.
Proof.
  unfold coerce. destruct (get data k); try done; by rewrite delete_insert_eq.
Qed.

Lemma read_filter (data : Data) :
  delete "size" (delete "page"
    (coerce StringToNumber "size" (coerce StringToNumber "page" data)))
  = delete "size" (delete "page" data).
Proof.
  rewrite (delete_delete _ "size" "page"), delete_coerce.
  rewrite (delete_delete _ "page" "size"), delete_coerce.
  reflexivity.
Qed.

Lemma read_page (data : Data) :
  number_of (get (coerce StringToNumber "size" (coerce StringToNumber "page" data)) "page")
  = Number StringToNumber (get data "page").
Proof.
  unfold get at 1. rewrite coerce_other by done.
  fold (get (coerce StringToNumber "page" data) "page").
  by rewrite coerce_same.
Qed.

Lemma read_size (data : Data) :
  number_of (get (coerce StringToNumber "size" (coerce StringToNumber "page" data)) "size")
  = Number StringToNumber (get data "size").
Proof.
  rewrite coerce_same. cbn. unfold get at 1. by rewrite coerce_other.
Qed.

(** [read] in terms of the record it was called with. *)
Lemma read_unfold (mongoose : Model) (data : Data) :
  let page := Number StringToNumber (get data "page") in
  let size := Number StringToNumber (get data "size") in
  let filter := delete "size" (delete "page" data) in
  snd (read StringToNumber mongoose data)
  = if gt page (Num (-1)) && gt size (Num 0) then
      then_ (exec mongoose (limit size (skip (mul page size) (find filter))))
        (fun rows =>
           then_ (countDocuments mongoose filter)
             (fun total => Fulfilled (PPage rows (Math_floor total))))
    else then_ (exec mongoose (find filter)) (fun rows => Fulfilled (PList rows)).
Proof.
  intros page size filter. unfold read. cbn [snd].
  rewrite read_filter, read_page, read_size. reflexivity.
Qed.

Lemma crud_get_settles (name : string) (mongoose : Model) (request : Request) :
  let data := spread (body request) (query request) in
  crud_get StringToNumber name mongoose request
  = {| calls := [Invoke (Crud Read) data];
       action :=
         match snd (read StringToNumber mongoose data) with
         | Fulfilled value =>
             Respond {| status := 200;
                        sent := {| message := Some "Hi, a data payload is provided!";
                                   payload := value;
                                   debug := None |} |}
         | Rejected e =>
             Respond {| status := 404;
                        sent := {| message := Some ("Oops, could not find " +:+ name +:+ " list!");
                                   payload := PData (fst (read StringToNumber mongoose data));
                                   debug := Some (err_message e) |} |}
         end |}.
Proof.
  intros data. unfold crud_get. fold data.
  destruct (read StringToNumber mongoose data) as [data' p]. cbn [fst snd].
  by destruct p.
Qed.

End Reading.

Section Pagination.
Variable StringToNumber : string -> jsnum.
Variable name : string.

Lemma window_slice (filter : Data) (rows : list Data) (p s : Z) :
  window (limit (Num s) (skip (Num p) (find filter))) rows
  = Fulfilled (take (Z.to_nat s) (drop (Z.to_nat p) rows)).
Proof. reflexivity. Qed.


End Pagination.


(** ** Service: updating a record *)

Section Updating.
Variable name : string.

Lemma put_settles (mongoose : Model) (request : Request) :
  let data := spread (body request) (query request) in
  action (crud_put name mongoose request)
  = match updateOne mongoose {[ "_id" := get data "_id" ]} data with
    | Fulfilled (Some _) =>
        Respond {| status := 200;
                   sent := {| message := Some ("Hi, an " +:+ name +:+ " has been updated!");
                              payload := PData data;
                              debug := None |} |}
    | Fulfilled None =>
        Respond {| status := 413;
                   sent := {| message := Some ("Oops, could not update " +:+ name +:+ "!");
                              payload := PData data;
                              debug := Some ("Oops, " +:+ name +:+ " does not exist!") |} |}
    | Rejected e =>
        Respond {| status := 413;
                   sent := {| message := Some ("Oops, could not update " +:+ name +:+ "!");
                              payload := PData data;
                              debug := Some (err_message e) |} |}
    end.
Proof.
  intros data. cbn. fold data. unfold update.
  by destruct (updateOne _ _ _) as [[w|]|e].
Qed.

(** The sibling DELETE handler: the ORM call it makes fulfils with [null]
    when nothing matched, and the request is refused. *)
Lemma delete_unknown_identifier (docs : list Data) (request : Request) :
  let data := spread (body request) (query request) in
  selected {[ "_id" := get data "_id" ]} docs = [] ->
  action (crud_delete name (collection docs) request)
  = Respond {| status := 422;
               sent := {| message := Some ("Oops, could not remove " +:+ name +:+ "!");
                          payload := PData data;
                          debug := Some ("Oops, could not remove " +:+ name) |} |}.
Proof. intros data H. cbn. fold data. unfold delete_. cbn. by rewrite H. Qed.

(** On a collection, an update is answered with status 200 whether or
    not a document carries the identifier. *)
Lemma put_collection (docs : list Data) (request : Request) :
  let data := spread (body request) (query request) in
  action (crud_put name (collection docs) request)
  = Respond {| status := 200;
               sent := {| message := Some ("Hi, an " +:+ name +:+ " has been updated!");
                          payload := PData data;
                          debug := None |} |}.
Proof. intros data. by rewrite put_settles. Qed.

(** C2, at an identifier no document carries. On the empty collection
    the write reports zero matched documents, the report is not [null],
    and the PUT handler answers with status 200 and the success message
    instead of status 413 and a not-found debug text. *)
Theorem put_unknown_identifier_answers_200 (request : Request) :
  let data := spread (body request) (query request) in
  updateOne (collection []) {[ "_id" := get data "_id" ]} data
  = Fulfilled (Some {| matchedCount := 0; modifiedCount := 0 |})
  /\ crud_put name (collection []) request
     = {| calls := [Invoke (Crud Update) data];
          action :=
            Respond {| status := 200;
                       sent := {| message := Some ("Hi, an " +:+ name +:+ " has been updated!");
                                  payload := PData data;
                                  debug := None |} |} |}.
Proof. intros data. split; reflexivity. Qed.

End Updating.

(** ** Service: the after-hooks of a sub-route *)

Section AfterHooks.
Variable fns : Heap.
Variable name key : string.

Lemma indexOf_from_lookup (array : list Ref) (f : Ref) (i : nat) (k : Z) :
  NoDup array -> array !! i = Some f ->
  indexOf_from f array k = k + Z.of_nat i.
Proof.
  intros Hnd. revert i k. induction Hnd as [|x rest Hx Hnd IH]; intros i k Hi.
  - by rewrite lookup_nil in Hi.
  - destruct i as [|j]; cbn in Hi |- *.
    + injection Hi as ->. rewrite Nat.eqb_refl. lia.
    + destruct (Nat.eqb_spec x f) as [->|_].
      * exfalso. apply Hx. by apply list_elem_of_lookup_2 in Hi.
      * rewrite (IH j (k + 1) Hi). lia.
Qed.

(** The handler of an after-hook answers exactly when the first
    occurrence of its function in the after list is the last entry. *)
Lemma after_handler (value : Subservice) (array : list Ref) (callback : Ref)
    (request : Request) (result : Payload) :
  hooks_after value = Some array ->
  fns callback (spread (body request) (query request)) = Returns (Fulfilled result) ->
  action (r_handler (addservices_hooker fns name key value callback hook_after) request)
  = if indexOf callback array =? Z.of_nat (length array) - 1
    then Respond {| status := 200;
                    sent := {| message := s_message value;
                               payload := result;
                               debug := None |} |}
    else Next (Some result).
Proof. intros Harray Hres. cbn. by rewrite Hres, Harray. Qed.

(** In a list of distinct functions the hook at position [i] answers when
    [i] is the last position and forwards otherwise. *)
Lemma after_handler_distinct (value : Subservice) (array : list Ref)
    (callback : Ref) (i : nat) (request : Request) (result : Payload) :
  hooks_after value = Some array ->
  NoDup array -> array !! i = Some callback ->
  fns callback (spread (body request) (query request)) = Returns (Fulfilled result) ->
  action (r_handler (addservices_hooker fns name key value callback hook_after) request)
  = if bool_decide (S i = length array)
    then Respond {| status := 200;
                    sent := {| message := s_message value;
                               payload := result;
                               debug := None |} |}
    else Next (Some result).
Proof.
  intros Harray Hnd Hi Hres. rewrite (after_handler _ _ _ _ _ Harray Hres).
  unfold indexOf. rewrite (indexOf_from_lookup _ _ _ _ Hnd Hi).
  case_bool_decide as Hlast.
  - rewrite (proj2 (Z.eqb_eq _ _)); [done|lia].
  - rewrite (proj2 (Z.eqb_neq _ _)); [done|lia].
Qed.

(** With distinct after-hooks that all fulfil, the handlers of a suffix of
    the list run in order and the last one answers with status 200. *)
Lemma after_chain_distinct (value : Subservice) (request : Request)
    (seen todo : list Ref) :
  let data := spread (body request) (query request) in
  hooks_after value = Some (seen ++ todo)%list ->
  NoDup (seen ++ todo)%list ->
  todo <> [] ->
  (forall f, f ∈ todo -> exists result, fns f data = Returns (Fulfilled result)) ->
  exists result,
    (exists f, last todo = Some f /\ fns f data = Returns (Fulfilled result))
    /\ run_chain
         (map (fun f => r_handler (addservices_hooker fns name key value f hook_after))
            todo)
         request
       = {| invoked := map (fun f => Invoke (Fn f) data) todo;
            outcome :=
              Responded {| status := 200;
                           sent := {| message := s_message value;
                                      payload := result;
                                      debug := None |} |} |}.
Proof.
  intros data. revert seen. induction todo as [|f rest IH]; intros seen Harray Hnd Hne Hall;
    [done|].
  destruct (Hall f) as [result Hres]; [by left|].
  assert ((seen ++ f :: rest)%list !! length seen = Some f) as Hi
    by (by rewrite list_lookup_middle).
  pose proof (after_handler_distinct value _ f _ request result Harray Hnd Hi Hres)
    as Hact.
  destruct rest as [|g rest'].
  - exists result. split; [by exists f|].
    rewrite bool_decide_eq_true_2 in Hact
      by (rewrite length_app; cbn; lia).
    cbn [map]. by rewrite (run_chain_respond _ _ _ _ Hact).
  - rewrite bool_decide_eq_false_2 in Hact
      by (rewrite length_app; cbn; lia).
    destruct (IH (seen ++ [f])%list) as (final & Hlast & Hrun).
    + by rewrite <- app_assoc.
    + by rewrite <- app_assoc.
    + done.
    + intros h Hh. apply Hall. by right.
    + exists final. split; [done|].
      cbn [map]. rewrite (run_chain_next _ _ _ _ Hact).
      cbn [map] in Hrun. by rewrite Hrun.
Qed.

End AfterHooks.

(** A sub-route with two different after-hooks: the first forwards, the
    second answers. *)
Lemma two_distinct_after_hooks (b q : Data) :
  let value :=
    {| s_method := "post"; s_message := Some "Hi, audited!"; s_error := None;
       s_authenticate := false;
       s_hooks := Some {| before := None; after := Some [0%nat; 1%nat] |};
       s_callback := None |} in
  dispatch (addservices Sample.heap (Sample.context []) "user" [("audit", value)])
    (Sample.request "post" "/user/audit" b q)
  = {| invoked := [Invoke (Fn 0%nat) (spread b q); Invoke (Fn 1%nat) (spread b q)];
       outcome :=
         Responded {| status := 200;
                      sent := {| message := Some "Hi, audited!";
                                 payload := PValue (VStr "audited");
                                 debug := None |} |} |}.
Proof. reflexivity. Qed.

(** C1, at a sub-route whose after list holds the same function twice.
    Every handler of the chain runs and every hook fulfils, yet the handler
    of the last entry forwards to [next] instead of answering, because
    [indexOf] finds the function at index 0: the chain ends without a
    response. *)
Theorem repeated_after_hook_never_responds (b q : Data) :
  let request := Sample.request "post" "/user/audit" b q in
  let data := spread b q in
  let last_handler :=
    r_handler
      (addservices_hooker Sample.heap "user" "audit" Sample.audited_twice 1%nat hook_after) in
  last (default [] (hooks_after Sample.audited_twice)) = Some 1%nat
  /\ action (last_handler request) = Next (Some (PValue (VStr "audited")))
  /\ dispatch
       (addservices Sample.heap (Sample.context []) "user" [("audit", Sample.audited_twice)])
       request
     = {| invoked :=
            [Invoke (Fn 0%nat) data; Invoke (Fn 1%nat) data; Invoke (Fn 1%nat) data];
          outcome := Unmatched |}.
Proof. intros request data last_handler. repeat split. Qed.

(** The custom callback of a sub-route whose after list is empty forwards
    too, and no handler is left to answer. *)
Lemma empty_after_list_never_responds (b q : Data) :
  dispatch
    (addservices Sample.heap (Sample.context []) "user" [("run", Sample.no_after)])
    (Sample.request "post" "/user/run" b q)
  = {| invoked := [Invoke (Fn 0%nat) (spread b q)]; outcome := Unmatched |}.
Proof. reflexivity. Qed.

(** * Further properties *)

(** ** The CRUD handlers *)

Section CrudAnswers.
Variable StringToNumber : string -> jsnum.
Variable name : string.
Variable mongoose : Model.

Lemma crud_post_answers (request : Request) :
  let data := spread (body request) (query request) in
  exists r, action (crud_post name mongoose request) = Respond r
    /\ ((status r = 201 /\ exists doc, save mongoose data = Fulfilled doc
                                      /\ payload (sent r) = PData doc)
        \/ (status r = 422 /\ payload (sent r) = PData data
            /\ exists e, save mongoose data = Rejected e
                         /\ debug (sent r) = Some (err_message e))).
Proof.
  intros data. cbn. fold data. unfold create.
  destruct (save mongoose data) as [doc|e]; cbn; eexists; (split; [reflexivity|]); cbn.
  - left. eauto.
  - right. eauto.
Qed.

Lemma crud_get_answers (request : Request) :
  let data := spread (body request) (query request) in
  exists r, action (crud_get StringToNumber name mongoose request) = Respond r
    /\ (status r = 200
        \/ (status r = 404
            /\ payload (sent r) = PData (fst (read StringToNumber mongoose data))
            /\ exists e, debug (sent r) = Some (err_message e))).
Proof.
  intros data. rewrite crud_get_settles. cbn [action]. fold data.
  destruct (snd (read StringToNumber mongoose data)) as [v|e];
    eexists; (split; [reflexivity|]); cbn; eauto.
Qed.

Lemma crud_put_answers (request : Request) :
  let data := spread (body request) (query request) in
  exists r, action (crud_put name mongoose request) = Respond r
    /\ payload (sent r) = PData data
    /\ (status r = 200 \/ (status r = 413 /\ is_Some (debug (sent r)))).
Proof.
  intros data. rewrite put_settles. fold data.
  destruct (updateOne mongoose _ data) as [[w|]|e];
    eexists; (split; [reflexivity|]); cbn; eauto.
Qed.

Lemma crud_delete_answers (request : Request) :
  let data := spread (body request) (query request) in
  exists r, action (crud_delete name mongoose request) = Respond r
    /\ payload (sent r) = PData data
    /\ (status r = 200 \/ (status r = 422 /\ is_Some (debug (sent r)))).
Proof.
  intros data. cbn. fold data. unfold delete_.
  destruct (findOneAndRemove mongoose _) as [[w|]|e];
    cbn; eexists; (split; [reflexivity|]); cbn; eauto.
Qed.

End CrudAnswers.

(** ** DELETE on a collection *)

Section Deleting.
Variable name : string.

Lemma satisfies_singleton (k : string) (v : Value) (doc : Data) :
  satisfies {[ k := v ]} doc = bool_decide (get doc k = v).
Proof.
  unfold satisfies. rewrite map_to_list_singleton. cbn. apply andb_true_r.
Qed.

Lemma selected_nil (filter : Data) (docs : list Data) :
  (forall doc, doc ∈ docs -> satisfies filter doc = false) ->
  selected filter docs = [].
Proof.
  unfold selected. induction docs as [|d rest IH]; [done|].
  intros H. cbn. rewrite (H d) by (by left).
  apply IH. intros doc Hin. apply H. by right.
Qed.

Lemma selected_head (filter : Data) (docs : list Data) (doc : Data) :
  doc ∈ docs -> satisfies filter doc = true ->
  exists first, head (selected filter docs) = Some first
    /\ first ∈ docs /\ satisfies filter first = true.
Proof.
  unfold selected. induction docs as [|d rest IH]; intros Hin Hsat.
  - by apply elem_of_nil in Hin.
  - cbn. destruct (satisfies filter d) eqn:Hd.
    + exists d. repeat split; [by left | done].
    + apply elem_of_cons in Hin as [->|Hin]; [congruence|].
      destruct (IH Hin Hsat) as (first & Hhead & Hfirst & Hok).
      exists first. repeat split; [done | by right | done].
Qed.

(** X2. On a collection, DELETE answers 200 with the submitted record when
    a stored document carries the submitted [_id], and otherwise answers
    422 with the could-not-remove message and the not-found text of
    [delete] as debug. *)
Theorem delete_answers_by_identifier (docs : list Data) (request : Request) :
  let data := spread (body request) (query request) in
  ((exists doc, doc ∈ docs /\ get doc "_id" = get data "_id") ->
     action (crud_delete name (collection docs) request)
     = Respond {| status := 200;
                  sent := {| message := Some ("Hi, an " +:+ name +:+ " has been removed!");
                             payload := PData data;
                             debug := None |} |})
  /\ ((forall doc, doc ∈ docs -> get doc "_id" <> get data "_id") ->
        action (crud_delete name (collection docs) request)
        = Respond {| status := 422;
                     sent := {| message := Some ("Oops, could not remove " +:+ name +:+ "!");
                                payload := PData data;
                                debug := Some ("Oops, could not remove " +:+ name) |} |}).
Proof.
  intros data. split.
  - intros (doc & Hin & Hid).
    destruct (selected_head {[ "_id" := get data "_id" ]} docs doc Hin)
      as (first & Hhead & _).
    { rewrite satisfies_singleton. by apply bool_decide_eq_true_2. }
    cbn. fold data. unfold delete_. cbn. by rewrite Hhead.
  - intros Hnone. cbn. fold data. unfold delete_. cbn.
    rewrite selected_nil; [done|].
    intros doc Hin. rewrite satisfies_singleton.
    apply bool_decide_eq_false_2. by apply Hnone.
Qed.

End Deleting.

Lemma delete_answers_by_identifier_witness :
  let stored : Data := <["_id" := VStr "7"]> {[ "username" := VStr "a" ]} in
  let known := Sample.request "delete" "/user" {[ "_id" := VStr "7" ]} ∅ in
  let unknown := Sample.request "delete" "/user" {[ "_id" := VStr "8" ]} ∅ in
  status_of (action (crud_delete "user" (collection [stored]) known)) = Some 200
  /\ status_of (action (crud_delete "user" (collection [stored]) unknown)) = Some 422.
Proof.
  intros stored known unknown. split.
  - rewrite (proj1 (delete_answers_by_identifier "user" [stored] known)); [reflexivity|].
    exists stored. split; [by left | vm_compute; reflexivity].
  - rewrite (proj2 (delete_answers_by_identifier "user" [stored] unknown)); [reflexivity|].
    intros doc Hin. apply list_elem_of_singleton in Hin as ->.
    vm_compute. discriminate.
Defined.

(** ** GET: pages of a collection and the record of a failed read *)

Section Pages.
Variable StringToNumber : string -> jsnum.
Variable name : string.

Lemma coerce_lookup (k : string) (data : Data) :
  coerce StringToNumber k data !! k
  = Some (VNum (Number StringToNumber (get data k))).
Proof.
  unfold coerce, get. destruct (data !! k) as [v|] eqn:Hk; cbn.
  - destruct v; cbn; rewrite ?lookup_insert_eq; done.
  - by rewrite lookup_insert_eq.
Qed.

Lemma get_collection_page (docs : list Data) (request : Request) (p s : Z) :
  let data := spread (body request) (query request) in
  let filter := delete "size" (delete "page" data) in
  Number StringToNumber (get data "page") = Num p ->
  Number StringToNumber (get data "size") = Num s ->
  -1 < p -> 0 < s ->
  action (crud_get StringToNumber name (collection docs) request)
  = Respond {| status := 200;
               sent := {| message := Some "Hi, a data payload is provided!";
                          payload :=
                            PPage (take (Z.to_nat s)
                                     (drop (Z.to_nat (p * s)) (selected filter docs)))
                              (Z.of_nat (length (selected filter docs)));
                          debug := None |} |}.
Proof.
  intros data filter Hp Hs Hp0 Hs0.
  rewrite crud_get_settles. cbn [action]. fold data.
  pose proof (read_unfold StringToNumber (collection docs) data) as Hread.
  cbn zeta in Hread. rewrite Hread, Hp, Hs. cbn [gt mul].
  rewrite (proj2 (Z.ltb_lt _ _) Hp0), (proj2 (Z.ltb_lt _ _) Hs0).
  reflexivity.
Qed.

(** X3. A page that starts at or beyond the end of the matching documents
    is answered with status 200, an empty page and the full count: it is
    not an error. *)
Theorem page_beyond_end_is_empty (docs : list Data) (request : Request) (p s : Z) :
  let data := spread (body request) (query request) in
  let filter := delete "size" (delete "page" data) in
  Number StringToNumber (get data "page") = Num p ->
  Number StringToNumber (get data "size") = Num s ->
  -1 < p -> 0 < s ->
  Z.of_nat (length (selected filter docs)) <= p * s ->
  action (crud_get StringToNumber name (collection docs) request)
  = Respond {| status := 200;
               sent := {| message := Some "Hi, a data payload is provided!";
                          payload := PPage [] (Z.of_nat (length (selected filter docs)));
                          debug := None |} |}.
Proof.
  intros data filter Hp Hs Hp0 Hs0 Hend.
  rewrite (get_collection_page docs request p s Hp Hs Hp0 Hs0).
  fold data filter. rewrite drop_ge by lia. by rewrite take_nil.
Qed.

(** X5. When the read is rejected, the 404 envelope carries the record as
    [read] left it: page and size replaced by their numeric readings (NaN
    for a missing or unreadable one), every other field as submitted. *)
Theorem failed_read_payload (mongoose : Model) (request : Request) (e : Error) :
  let data := spread (body request) (query request) in
  snd (read StringToNumber mongoose data) = Rejected e ->
  exists d,
    action (crud_get StringToNumber name mongoose request)
    = Respond {| status := 404;
                 sent := {| message := Some ("Oops, could not find " +:+ name +:+ " list!");
                            payload := PData d;
                            debug := Some (err_message e) |} |}
    /\ d !! "page" = Some (VNum (Number StringToNumber (get data "page")))
    /\ d !! "size" = Some (VNum (Number StringToNumber (get data "size")))
    /\ forall k, k <> "page" -> k <> "size" -> d !! k = data !! k.
Proof.
  intros data Hrej. rewrite crud_get_settles. cbn [action]. fold data.
  rewrite Hrej. eexists. split; [reflexivity|].
  unfold read. cbn [fst]. split; [|split].
  - rewrite coerce_other by done. apply coerce_lookup.
  - rewrite coerce_lookup. unfold get. by rewrite coerce_other.
  - intros k Hk1 Hk2. by rewrite !coerce_other.
Qed.

End Pages.

Lemma page_beyond_end_is_empty_witness :
  let request :=
    Sample.request "get" "/user" ∅
      (<["size" := VStr "10"]> (<["page" := VStr "5"]> {[ "username" := VStr "a" ]})) in
  payload_of (action (crud_get decimal "user" (collection Sample.users) request))
  = Some (PPage [] 1).
Proof.
  intros request.
  rewrite (page_beyond_end_is_empty decimal "user" Sample.users request 5 10).
  - vm_compute. reflexivity.
  - vm_compute. reflexivity.
  - vm_compute. reflexivity.
  - reflexivity.
  - reflexivity.
  - vm_compute. discriminate.
Defined.

Lemma failed_read_payload_witness :
  let request := Sample.request "get" "/user" {[ "size" := VStr "ten" ]} ∅ in
  exists d,
    payload_of (action (crud_get decimal "user" Sample.offline request)) = Some (PData d)
    /\ d !! "page" = Some (VNum NaN) /\ d !! "size" = Some (VNum NaN).
Proof.
  intros request.
  destruct (failed_read_payload decimal "user" Sample.offline request
              (Error_ "connection lost")) as (d & Hact & Hpage & Hsize & _).
  - vm_compute. reflexivity.
  - exists d. rewrite Hact. split; [reflexivity|]. split; [exact Hpage | exact Hsize].
Defined.

(** ** Service: the routes of the constructor *)

Section ServiceWide.
Variable fns : Heap.
Variable StringToNumber : string -> jsnum.
Variable mongoose : Model.

Lemma filter_hooker_routes (request : Request) (name key : string)
    (array : option (list Ref)) :
  req_path request = mainpath name ->
  List.filter (matched request) (forEach array (hooker_route fns name key))
  = if String.eqb key (req_method request)
    then forEach array (hooker_route fns name key) else [].
Proof.
  intros Hp. destruct array as [l|]; cbn [forEach]; [|by destruct (String.eqb _ _)].
  induction l as [|f rest IH]; cbn [map List.filter]; [by destruct (String.eqb _ _)|].
  unfold matched at 1. cbn [r_method r_path hooker_route].
  rewrite Hp, String.eqb_refl, andb_true_r, IH.
  by destruct (String.eqb key (req_method request)).
Qed.

Lemma filter_hooker_absent (request : Request) (name : string) (hooks : VerbHooks) :
  req_path request = mainpath name ->
  req_method request ∉ fst <$> hooks ->
  List.filter (matched request) (hooker fns name hooks) = [].
Proof.
  intros Hp. unfold hooker. induction hooks as [|[key array] rest IH]; [done|].
  rewrite fmap_cons, not_elem_of_cons. cbn [fst]. intros [Hne Hnin].
  cbn [flat_map fst snd]. rewrite List.filter_app, filter_hooker_routes by done.
  destruct (String.eqb_spec key (req_method request)) as [Heq|_]; [by subst|].
  by apply IH.
Qed.

Lemma filter_hooker_entry (request : Request) (name : string) (hooks : VerbHooks)
    (array : option (list Ref)) :
  req_path request = mainpath name ->
  NoDup (fst <$> hooks) ->
  (req_method request, array) ∈ hooks ->
  List.filter (matched request) (hooker fns name hooks)
  = forEach array (hooker_route fns name (req_method request)).
Proof.
  intros Hp. unfold hooker. induction hooks as [|[key arr] rest IH]; intros Hnd Hin.
  - by apply elem_of_nil in Hin.
  - rewrite fmap_cons in Hnd. apply NoDup_cons in Hnd as [Hfresh Hnd].
    cbn [fst] in Hfresh.
    cbn [flat_map fst snd]. rewrite List.filter_app, filter_hooker_routes by done.
    apply elem_of_cons in Hin as [[= <- <-]|Hin].
    + rewrite String.eqb_refl.
      fold (hooker fns name rest). rewrite filter_hooker_absent by done.
      by rewrite app_nil_r.
    + destruct (String.eqb_spec key (req_method request)) as [Heq|_].
      * subst key. exfalso. apply Hfresh.
        by apply (list_elem_of_fmap_2 fst _ (req_method request, array)).
      * by apply IH.
Qed.

Lemma hooker_route_answers (name key : string) (f : Ref) (request : Request)
    (p : Promise Payload) :
  let data := spread (body request) (query request) in
  fns f data = Returns p ->
  r_handler (hooker_route fns name key f) request
  = {| calls := [Invoke (Fn f) data];
       action :=
         Respond
           match p with
           | Fulfilled _ =>
               {| status := 201;
                  sent := {| message := None; payload := PData data; debug := None |} |}
           | Rejected e =>
               {| status := 422;
                  sent := {| message := Some "Oops, a service error occurred!";
                             payload := PData data;
                             debug := Some (err_message e) |} |}
           end |}.
Proof. intros data H. cbn. fold data. rewrite H. by destruct p. Qed.

(** X6. A service-wide before-hook registered for a verb answers the
    request to [/name] itself, with status 201 and the request record when
    its promise is fulfilled and with status 422 when it is rejected; it
    never forwards, so the CRUD operation of that verb and every later hook
    are never called. *)
Theorem service_hook_preempts_crud (properties : Properties) (sh : ServiceHooks)
    (before_hooks : VerbHooks) (f : Ref) (others : list Ref) (request : Request)
    (p : Promise Payload) :
  let data := spread (body request) (query request) in
  hooks properties = Some sh ->
  sh_before sh = Some before_hooks ->
  NoDup (fst <$> before_hooks) ->
  (req_method request, Some (f :: others)) ∈ before_hooks ->
  req_path request = mainpath (name properties) ->
  fns f data = Returns p ->
  dispatch (constructor fns StringToNumber mongoose properties) request
  = {| invoked := [Invoke (Fn f) data];
       outcome :=
         Responded
           match p with
           | Fulfilled _ =>
               {| status := 201;
                  sent := {| message := None; payload := PData data; debug := None |} |}
           | Rejected e =>
               {| status := 422;
                  sent := {| message := Some "Oops, a service error occurred!";
                             payload := PData data;
                             debug := Some (err_message e) |} |}
           end |}.
Proof.
  intros data Hh Hb Hnd Hin Hp Hf.
  unfold dispatch, constructor. rewrite Hh, Hb. cbn [from_option id].
  rewrite List.filter_app, (filter_hooker_entry _ _ _ _ Hp Hnd Hin).
  cbn [forEach map app]. erewrite run_chain_respond;
    rewrite (hooker_route_answers _ _ _ _ _ Hf); reflexivity.
Qed.

(** The route [crud()] registers for a verb is the one a request with that
    verb to [/name] matches, and its handler answers after calling the
    operation of the verb on the request record. *)
Lemma crud_route_answers (name verb : string) (op : Operation) (request : Request) :
  let data := spread (body request) (query request) in
  (verb, op) ∈ crud_verbs ->
  req_method request = verb ->
  req_path request = mainpath name ->
  exists h r,
    List.filter (matched request) (crud StringToNumber name mongoose)
    = [ {| r_method := verb; r_path := mainpath name; r_handler := h |} ]
    /\ h request = {| calls := [Invoke (Crud op) data]; action := Respond r |}.
Proof.
  intros data Hin Hm Hp. unfold crud_verbs in Hin.
  repeat (apply elem_of_cons in Hin as [[= -> ->]|Hin]);
    [| | | | by apply elem_of_nil in Hin];
    unfold crud; cbn [List.filter]; unfold matched; cbn [r_method r_path];
    rewrite Hm, Hp, !String.eqb_refl; cbn [String.eqb Ascii.eqb Bool.eqb andb].
  - destruct (crud_post_answers name mongoose request) as (r & Hr & _).
    eexists _, r. split; [reflexivity|]. rewrite <- Hr. reflexivity.
  - destruct (crud_get_answers StringToNumber name mongoose request) as (r & Hr & _).
    eexists _, r. split; [reflexivity|]. rewrite <- Hr. reflexivity.
  - destruct (crud_put_answers name mongoose request) as (r & Hr & _).
    eexists _, r. split; [reflexivity|]. rewrite <- Hr. reflexivity.
  - destruct (crud_delete_answers name mongoose request) as (r & Hr & _).
    eexists _, r. split; [reflexivity|]. rewrite <- Hr. reflexivity.
Qed.

(** X7. When the service names a store and has no service-wide before-hook
    for the verb, a request to [/name] with one of the four CRUD verbs is
    answered by the CRUD handler, which calls only the operation of that
    verb: the service-wide after-hooks, registered behind it, and the
    handlers of the sub-routes are never called. *)
Theorem crud_answers_alone (context : Application.t) (properties : Properties)
    (services : Microservices) (s verb : string) (op : Operation)
    (request : Request) :
  let data := spread (body request) (query request) in
  let routes :=
    (constructor fns StringToNumber mongoose properties
     ++ addservices fns context (name properties) services)%list in
  store properties = Some s -> s <> EmptyString ->
  (verb, op) ∈ crud_verbs ->
  req_method request = verb ->
  req_path request = mainpath (name properties) ->
  verb ∉ fst <$> default []
                   (match hooks properties with Some h => sh_before h | None => None end) ->
  exists r,
    dispatch routes request
    = {| invoked := [Invoke (Crud op) data]; outcome := Responded r |}.
Proof.
  intros data routes Hs Hne Hin Hm Hp Hfree.
  destruct (crud_route_answers (name properties) verb op request Hin Hm Hp)
    as (h & r & Hfilter & Hrun).
  exists r. unfold dispatch, routes, constructor.
  rewrite Hs. destruct (String.eqb_spec s EmptyString) as [|_]; [done|].
  rewrite !List.filter_app, filter_hooker_absent by (by rewrite ?Hm).
  rewrite Hfilter. cbn [app map r_handler].
  erewrite run_chain_respond; rewrite Hrun; reflexivity.
Qed.

(** X8. The user service names the store 'user' and has no service-wide
    hooks: whatever sub-routes it adds, a request to [/user] with one of
    the four CRUD verbs is answered by the CRUD handler of that verb
    alone. *)
Theorem user_crud_answers (context : Application.t) (services : Microservices)
    (verb : string) (op : Operation) (request : Request) :
  let data := spread (body request) (query request) in
  (verb, op) ∈ crud_verbs ->
  req_method request = verb ->
  req_path request = "/user" ->
  exists r,
    dispatch (User.constructor fns StringToNumber mongoose context services) request
    = {| invoked := [Invoke (Crud op) data]; outcome := Responded r |}.
Proof.
  intros data Hin Hm Hp.
  destruct (crud_route_answers "user" verb op request Hin Hm Hp)
    as (h & r & Hfilter & Hrun).
  exists r. unfold dispatch, User.constructor, constructor.
  cbn [store name hooks from_option id String.eqb hooker flat_map app].
  rewrite !List.filter_app, Hfilter. cbn [app map r_handler].
  erewrite run_chain_respond; rewrite Hrun; reflexivity.
Qed.

End ServiceWide.

Lemma service_hook_preempts_crud_witness :
  let properties :=
    {| name := "user"; store := Some "user";
       hooks := Some {| sh_before := Some [("post", Some [1%nat])]; sh_after := None |} |} in
  let request := Sample.request "post" "/user" {[ "username" := VStr "a" ]} ∅ in
  dispatch (constructor Sample.heap decimal (collection []) properties) request
  = {| invoked := [Invoke (Fn 1%nat) (spread (body request) (query request))];
       outcome :=
         Responded
           {| status := 201;
              sent := {| message := None;
                         payload := PData (spread (body request) (query request));
                         debug := None |} |} |}.
Proof.
  intros properties request.
  apply (service_hook_preempts_crud Sample.heap decimal (collection []) properties
           {| sh_before := Some [("post", Some [1%nat])]; sh_after := None |}
           [("post", Some [1%nat])] 1%nat [] request
           (Fulfilled (PValue (VStr "audited")))).
  - reflexivity.
  - reflexivity.
  - apply (bool_decide_unpack _). vm_compute. exact I.
  - apply list_elem_of_here.
  - reflexivity.
  - reflexivity.
Defined.

Lemma crud_answers_alone_witness :
  let properties :=
    {| name := "user"; store := Some "user";
       hooks := Some {| sh_before := None; sh_after := Some [("put", Some [0%nat])] |} |} in
  let request := Sample.request "put" "/user" {[ "_id" := VStr "7" ]} ∅ in
  exists r,
    dispatch
      (constructor Sample.heap decimal (collection []) properties
       ++ addservices Sample.heap (Sample.context []) "user"
            [("audit", Sample.audited_twice)])%list
      request
    = {| invoked := [Invoke (Crud Update) (spread (body request) (query request))];
         outcome := Responded r |}.
Proof.
  intros properties request.
  apply (crud_answers_alone Sample.heap decimal (collection []) (Sample.context [])
           properties [("audit", Sample.audited_twice)] "user" "put" Update request).
  - reflexivity.
  - discriminate.
  - unfold crud_verbs. repeat constructor.
  - reflexivity.
  - reflexivity.
  - cbn. apply not_elem_of_nil.
Defined.

Lemma user_crud_answers_witness :
  let request := Sample.request "delete" "/user" {[ "_id" := VStr "7" ]} ∅ in
  exists r,
    dispatch
      (User.constructor Sample.heap decimal (collection []) (Sample.context [])
         [("audit", Sample.audited_twice)])
      request
    = {| invoked := [Invoke (Crud Delete) (spread (body request) (query request))];
         outcome := Responded r |}.
Proof.
  intros request.
  apply (user_crud_answers Sample.heap decimal (collection []) (Sample.context [])
           [("audit", Sample.audited_twice)] "delete" Delete request).
  - unfold crud_verbs. repeat constructor.
  - reflexivity.
  - reflexivity.
Defined.

(** ** Service: the chain of a sub-route *)

Section Chains.
Variable fns : Heap.
Variable context : Application.t.
Variable name : string.

Lemma forEach_handlers {A : Type} (array : option (list A)) (f : A -> Route) :
  map r_handler (forEach array f) = map (fun a => r_handler (f a)) (default [] array).
Proof. destruct array as [l|]; cbn; [apply map_map | done]. Qed.

(** What a request for the sub-route [key] runs, part by part. *)
Lemma subroute_chain (services : Microservices) (key : string) (value : Subservice)
    (request : Request) :
  NoDup (fst <$> services) ->
  (key, value) ∈ services ->
  req_method request = s_method value ->
  req_path request = subpath name key ->
  dispatch (addservices fns context name services) request
  = run_chain
      (map r_handler (authenticate context name value key)
       ++ map (fun f => r_handler (addservices_hooker fns name key value f hook_before))
            (default [] (hooks_before value))
       ++ map r_handler
            (match s_callback value with
             | Some callback => [callback_route fns name key value callback]
             | None => []
             end)
       ++ map (fun f => r_handler (addservices_hooker fns name key value f hook_after))
            (default [] (hooks_after value)))
      request.
Proof.
  intros Hnd Hin Hm Hp. rewrite (dispatch_addservices _ _ _ _ _ _ _ Hnd Hin Hm Hp).
  unfold addservice. by rewrite !map_app, !forEach_handlers.
Qed.

End Chains.

Section Escapes.
Variable fns : Heap.
Variable context : Application.t.
Variable name : string.

(** X12. An exception thrown by a hook or by the callback before it
    returns a promise is not caught by the handler: no 422 envelope is
    sent, the chain stops with the exception, and the error-handling stage
    throws it again unless its kind is 'entity.too.large'. *)
Theorem thrown_exception_escapes (strings : Handlers.Strings) (key : string)
    (value : Subservice) (f : Ref) (request : Request) (e : Error) :
  let data := spread (body request) (query request) in
  fns f data = Throws e ->
  (forall hook rest,
     run_chain (r_handler (addservices_hooker fns name key value f hook) :: rest) request
     = {| invoked := [Invoke (Fn f) data]; outcome := Errored e |})
  /\ (forall rest,
        run_chain (r_handler (callback_route fns name key value f) :: rest) request
        = {| invoked := [Invoke (Fn f) data]; outcome := Errored e |})
  /\ (req_method request = s_method value ->
      req_path request = subpath name key ->
      err_type e <> Some "entity.too.large" ->
      forall hook,
        Handlers.serve strings [addservices_hooker fns name key value f hook] request
        = Raise e
        /\ Handlers.serve strings [callback_route fns name key value f] request
           = Raise e).
Proof.
  intros data Hthrow. split; [|split].
  - intros hook rest. cbn. fold data. by rewrite Hthrow.
  - intros rest. cbn. fold data. by rewrite Hthrow.
  - intros Hm Hp Hkind hook.
    unfold Handlers.serve, dispatch. cbn [List.filter].
    unfold matched. cbn [r_method r_path addservices_hooker callback_route].
    rewrite Hm, Hp, !String.eqb_refl. cbn. fold data. rewrite Hthrow. cbn.
    unfold Handlers.too_large. by rewrite bool_decide_eq_false_2.
Qed.

Lemma run_chain_invoked (handlers : list Handler) (request : Request) (i : Invocation) :
  i ∈ invoked (run_chain handlers request) ->
  exists h, h ∈ handlers /\ i ∈ calls (h request).
Proof.
  induction handlers as [|h rest IH]; cbn; [intros H; by apply elem_of_nil in H|].
  destruct (action (h request)); cbn.
  - intros H. exists h. split; [by left | done].
  - rewrite elem_of_app. intros [H|H].
    + exists h. split; [by left | done].
    + destruct (IH H) as (h' & Hin & Hcalls). exists h'. split; [by right | done].
  - intros H. exists h. split; [by left | done].
Qed.

(** X13. A request for a sub-route calls nothing but what its own
    descriptor names: the [authenticate] predicate only when the flag is
    set, and otherwise only functions of its before list, its callback and
    its after list. No function of another sub-route is called. *)
Theorem subroute_calls_its_own (services : Microservices) (key : string)
    (value : Subservice) (request : Request) (i : Invocation) :
  NoDup (fst <$> services) ->
  (key, value) ∈ services ->
  req_method request = s_method value ->
  req_path request = subpath name key ->
  i ∈ invoked (dispatch (addservices fns context name services) request) ->
  (callee i = Authenticate /\ s_authenticate value = true)
  \/ exists f, callee i = Fn f
       /\ (f ∈ default [] (hooks_before value)
           \/ s_callback value = Some f
           \/ f ∈ default [] (hooks_after value)).
Proof.
  intros Hnd Hin Hm Hp Hi.
  rewrite (subroute_chain fns context name _ _ _ _ Hnd Hin Hm Hp) in Hi.
  apply run_chain_invoked in Hi as (h & Hh & Hcall).
  rewrite !elem_of_app in Hh. destruct Hh as [Hh|[Hh|[Hh|Hh]]].
  - left. unfold authenticate in Hh.
    destruct (s_authenticate value); [|by apply elem_of_nil in Hh].
    apply list_elem_of_singleton in Hh as ->.
    apply list_elem_of_singleton in Hcall as ->. done.
  - right. apply list_elem_of_In, in_map_iff in Hh as (f & <- & Hf).
    apply list_elem_of_singleton in Hcall as ->.
    exists f. split; [done|]. left. by apply list_elem_of_In.
  - right. destruct (s_callback value) as [callback|]; [|by apply elem_of_nil in Hh].
    apply list_elem_of_singleton in Hh as ->.
    apply list_elem_of_singleton in Hcall as ->.
    exists callback. split; [done|]. right. by left.
  - right. apply list_elem_of_In, in_map_iff in Hh as (f & <- & Hf).
    apply list_elem_of_singleton in Hcall as ->.
    exists f. split; [done|]. right. right. by apply list_elem_of_In.
Qed.

End Escapes.

(** ** The cache of a store over a history of events *)

Section StoreHistory.
Import Store.
Context {T : Type} (_id : T -> string).

Lemma replay_app (events1 events2 : list (Event * T)) (cache : Cache T) :
  replay _id (events1 ++ events2) cache
  = replay _id events2 (replay _id events1 cache).
Proof. unfold replay. apply fold_left_app. Qed.

Lemma replay_cons (ev : Event * T) (events : list (Event * T)) (cache : Cache T) :
  replay _id (ev :: events) cache = replay _id events (hooks _id (fst ev) (snd ev) cache).
Proof. reflexivity. Qed.

Lemma replay_untouched (events : list (Event * T)) (cache : Cache T) (k : string) :
  (forall ev, ev ∈ events -> _id (snd ev) <> k) ->
  data (replay _id events cache) !! k = data cache !! k.
Proof.
  revert cache. induction events as [|[e v] rest IH]; intros cache Hall; [done|].
  rewrite replay_cons, IH by (intros ev Hev; apply Hall; by right).
  assert (_id v <> k) as Hne by (apply (Hall (e, v)); by left).
  destruct e; cbn; by rewrite ?lookup_insert_ne, ?lookup_delete_ne.
Qed.

(** X14. Over any history of save, update and remove events the count of
    the cache is its starting count plus the number of saves: updates and
    removes never change it, so it never decreases. *)
Theorem count_counts_saves (events : list (Event * T)) (cache : Cache T) :
  count (replay _id events cache)
  = count cache
    + Z.of_nat (length (List.filter (fun ev => is_save (fst ev)) events))
  /\ count cache <= count (replay _id events cache).
Proof.
  assert (forall c,
            count (replay _id events c)
            = count c
              + Z.of_nat (length (List.filter (fun ev => is_save (fst ev)) events)))
    as Hcount.
  { induction events as [|[e v] rest IH]; intros c; [cbn; lia|].
    rewrite replay_cons, IH. destruct e; cbn; lia. }
  split; [apply Hcount|]. rewrite Hcount. lia.
Qed.

(** X15. The entry of an identifier is decided by the last event that
    carried it: after a save or an update the cache holds that record
    under the identifier, after a remove it holds none, and an identifier
    no event carried has the entry it started with. *)
Theorem entry_follows_last_event (earlier later : list (Event * T)) (e : Event)
    (value : T) (cache : Cache T) :
  (forall ev, ev ∈ later -> _id (snd ev) <> _id value) ->
  data (replay _id (earlier ++ (e, value) :: later) cache) !! _id value
  = match e with
    | remove => None
    | _ => Some value
    end.
Proof.
  intros Hlater. rewrite replay_app, replay_cons, (replay_untouched _ _ _ Hlater).
  destruct e; cbn; by rewrite ?lookup_insert_eq, ?lookup_delete_eq.
Qed.

End StoreHistory.

Lemma entry_follows_last_event_witness :
  let cache :=
    Store.replay id
      [(Store.save, "a"); (Store.save, "b"); (Store.remove, "a"); (Store.update, "b")]
      Store.initial in
  Store.data cache !! "a" = None.
Proof.
  apply (entry_follows_last_event id [(Store.save, "a"); (Store.save, "b")]
           [(Store.update, "b")] Store.remove "a" Store.initial).
  intros ev Hev. apply list_elem_of_singleton in Hev as ->. discriminate.
Defined.

(** ** User.authorize on a collection *)

Section AuthorizeStored.
Variable context : Application.t.

Lemma satisfies_intro (filter doc : Data) :
  (forall k v, filter !! k = Some v -> get doc k = v) ->
  satisfies filter doc = true.
Proof.
  intros H. unfold satisfies. apply forallb_forall. intros [k v] Hin.
  apply bool_decide_eq_true_2. apply H.
  by apply elem_of_map_to_list, list_elem_of_In.
Qed.

(** X16. When the user store is a collection holding a record with the
    submitted non-empty username and the submitted password, [authorize]
    fulfils, with a stored record that carries both. *)
Theorem authorize_accepts_stored (docs : list Data) (data doc : Data) :
  storage (Application.query context "user") = collection docs ->
  truthy (get data "username") = true ->
  doc ∈ docs ->
  get doc "username" = get data "username" ->
  get doc "password" = get data "password" ->
  exists record,
    User.authorize context data = Returns (Fulfilled record)
    /\ record ∈ docs
    /\ get record "username" = get data "username"
    /\ get record "password" = get data "password".
Proof.
  intros Hstore Hname Hin Huser Hpass.
  destruct (selected_head (User.credentials data) docs doc Hin)
    as (record & Hhead & Hrecord & Hsat).
  { apply satisfies_intro. intros k v. unfold User.credentials.
    rewrite lookup_insert. case_decide as Hk.
    - intros [= <-]. by subst k.
    - rewrite lookup_singleton. case_decide as Hk'; [|done].
      intros [= <-]. by subst k. }
  exists record. split; [|split; [done|]].
  - unfold User.authorize. rewrite Hname, Hstore. cbn. by rewrite Hhead.
  - split; apply (satisfies_field _ _ _ _ Hsat); unfold User.credentials.
    + rewrite lookup_insert_ne by done. apply lookup_singleton_eq.
    + apply lookup_insert_eq.
Qed.

End AuthorizeStored.

Lemma authorize_accepts_stored_witness :
  let data : Data := <["password" := VStr "right"]> {[ "username" := VStr "a" ]} in
  exists record,
    User.authorize (Sample.context Sample.users) data = Returns (Fulfilled record)
    /\ record ∈ Sample.users.
Proof.
  intros data.
  destruct (authorize_accepts_stored (Sample.context Sample.users) Sample.users data
              Sample.stored_user) as (record & Hok & Hin & _).
  - reflexivity.
  - vm_compute. reflexivity.
  - apply list_elem_of_here.
  - vm_compute. reflexivity.
  - vm_compute. reflexivity.
  - exists record. split; [exact Hok | exact Hin].
Defined.

(** ** The chains of the sample sub-routes *)

Lemma thrown_exception_escapes_witness :
  let request := Sample.request "post" "/user/login" ∅ ∅ in
  run_chain
    [r_handler (callback_route Sample.heap "user" "login" Sample.login 3%nat)] request
  = {| invoked := [Invoke (Fn 3%nat) (spread (body request) (query request))];
       outcome := Errored (Error_ "not a function") |}.
Proof.
  intros request.
  apply (proj1 (proj2 (thrown_exception_escapes Sample.heap "user" Sample.strings
                         "login" Sample.login 3%nat request (Error_ "not a function")
                         eq_refl))).
Defined.

Lemma subroute_calls_its_own_witness :
  let request := Sample.request "post" "/user/check" {[ "a" := VNull ]} ∅ in
  let i := Invoke (Fn 1%nat) (spread (body request) (query request)) in
  (callee i = Authenticate /\ s_authenticate Sample.checks_only = true)
  \/ exists f, callee i = Fn f
       /\ (f ∈ default [] (hooks_before Sample.checks_only)
           \/ s_callback Sample.checks_only = Some f
           \/ f ∈ default [] (hooks_after Sample.checks_only)).
Proof.
  intros request i.
  apply (subroute_calls_its_own Sample.heap (Sample.context []) "user"
           [("check", Sample.checks_only); ("login", Sample.login)]
           "check" Sample.checks_only request i).
  - apply (bool_decide_unpack _). vm_compute. exact I.
  - apply list_elem_of_here.
  - reflexivity.
  - reflexivity.
  - apply list_elem_of_further, list_elem_of_here.
Defined.

(** ** The handlers of distinct after-hooks *)

Section AfterHandlers.
Variable fns : Heap.
Variable name key : string.

(** X18. In an after list of distinct functions, the handler of the hook
    at position [i], once the hook has fulfilled on the request record,
    answers 200 with the descriptor's message and the hook's result when
    [i] is the last position, and calls [next(result)] without answering
    at every other position. *)
Theorem distinct_after_hooks_last_answers (value : Subservice) (array : list Ref)
    (f : Ref) (i : nat) (request : Request) (result : Payload) :
  let data := spread (body request) (query request) in
  hooks_after value = Some array ->
  NoDup array ->
  array !! i = Some f ->
  fns f data = Returns (Fulfilled result) ->
  r_handler (addservices_hooker fns name key value f hook_after) request
  = {| calls := [Invoke (Fn f) data];
       action :=
         if bool_decide (S i = length array)
         then Respond {| status := 200;
                         sent := {| message := s_message value;
                                    payload := result;
                                    debug := None |} |}
         else Next (Some result) |}.
Proof.
  intros data Harray Hdistinct Hi Hres.
  pose proof (after_handler_distinct fns name key value array f i request result
                Harray Hdistinct Hi Hres) as Hact.
  rewrite <- Hact. reflexivity.
Qed.

End AfterHandlers.

Lemma distinct_after_hooks_last_answers_witness :
  let request := Sample.request "post" "/user/review" {[ "a" := VNull ]} ∅ in
  action
    (r_handler (addservices_hooker Sample.heap "user" "review" Sample.reviewed 0%nat
                  hook_after) request)
  = Next (Some (PData (spread (body request) (query request))))
  /\ action
       (r_handler (addservices_hooker Sample.heap "user" "review" Sample.reviewed 1%nat
                     hook_after) request)
     = Respond {| status := 200;
                  sent := {| message := Some "Hi, reviewed!";
                             payload := PValue (VStr "audited");
                             debug := None |} |}.
Proof.
  intros request. split.
  - rewrite (distinct_after_hooks_last_answers Sample.heap "user" "review"
               Sample.reviewed [0%nat; 1%nat] 0%nat 0 request
               (PData (spread (body request) (query request)))); try reflexivity.
    apply (bool_decide_unpack _). vm_compute. exact I.
  - rewrite (distinct_after_hooks_last_answers Sample.heap "user" "review"
               Sample.reviewed [0%nat; 1%nat] 1%nat 1 request
               (PValue (VStr "audited"))); try reflexivity.
    apply (bool_decide_unpack _). vm_compute. exact I.
Defined.
